(** * CivicConnect: report lifecycle, client-side guards and list filters

    A shallow embedding of the CivicConnect single-page client
    (pages [Dashboard], [ReportDetail], [CreateReport], [AdminDashboard])
    together with the Report Lifecycle Manager the client talks to.

    The page components are embedded from the JavaScript sources: every
    event handler becomes a function from the component state (and the
    outcome of the HTTP call it awaits, if any) to the new state and the
    list of effects it performs, in program order.  The Lifecycle Manager is
    the REST back end; its code is not part of the sources at hand, so its
    operations are modelled from the specification and marked as such. *)

From Stdlib Require Import ZArith Ascii String List Lia Bool.
From Stdlib Require Import DecimalString DecimalN.
From Stdlib Require QArith_base.
From stdpp Require Import base option list gmap strings.

Import ListNotations.

(** ** JavaScript built-ins used by the pages *)

(** Strings are sequences of 8-bit code units, read as the code points
    U+0000..U+00FF (the Latin-1 range of JavaScript's UTF-16 code units). *)
Module JS.

(** [String.prototype.toLowerCase] on strings of the Latin-1 range, where
    it works one code unit at a time: the upper-case letters are A..Z and
    U+00C0..U+00DE except the multiplication sign U+00D7, and each maps to
    the code unit 32 above it.  Outside this range lower-casing depends on
    the context of a letter and may change the length of a string, so the
    properties below use nothing of [toLowerCase] but that it maps the
    empty string to itself: they compare the lower-case forms as the pages
    do, and never reason letter by letter. *)
Definition lower_char (c : ascii) : ascii :=
  let n := nat_of_ascii c in
  if (65 <=? n) && (n <=? 90)
     || (192 <=? n) && (n <=? 222) && negb (n =? 215)
  then ascii_of_nat (n + 32)
  else c.

Fixpoint toLowerCase (s : string) : string :=
  match s with
  | EmptyString => EmptyString
  | String c s' => String (lower_char c) (toLowerCase s')
  end.

(** [s.startsWith(t)] *)
Fixpoint startsWith (s t : string) {struct t} : bool :=
  match t, s with
  | EmptyString, _ => true
  | String _ _, EmptyString => false
  | String b t', String a s' => if decide (a = b) then startsWith s' t' else false
  end.

(** [s.includes(t)]: [t] occurs in [s] at some position. *)
Fixpoint includes (s t : string) : bool :=
  startsWith s t ||
  match s with
  | EmptyString => false
  | String _ s' => includes s' t
  end.

(** White space and line terminators of the Latin-1 range, as stripped by
    [String.prototype.trim]: TAB, LF, VT, FF, CR, SP and NBSP. *)
Definition is_white (c : ascii) : bool :=
  let n := nat_of_ascii c in
  (9 <=? n) && (n <=? 13) || (n =? 32) || (n =? 160).

Fixpoint trimStart (s : string) : string :=
  match s with
  | EmptyString => EmptyString
  | String c s' => if is_white c then trimStart s' else s
  end.

Fixpoint trimEnd (s : string) : string :=
  match s with
  | EmptyString => EmptyString
  | String c s' =>
      match trimEnd s' with
      | EmptyString => if is_white c then EmptyString else String c EmptyString
      | r => String c r
      end
  end.

Definition trim (s : string) : string := trimEnd (trimStart s).

(** Truthiness of a string value: only the empty string is falsy. *)
Definition truthy (s : string) : bool :=
  match s with EmptyString => false | String _ _ => true end.

(** Truthiness of a value that is [true], [false] or [undefined]. *)
Definition truthy_opt (v : option bool) : bool :=
  match v with Some b => b | None => false end.

(** [a || b] where [a] is a boolean and [b] may be [undefined]. *)
Definition or_js (a : bool) (b : option bool) : option bool :=
  if a then Some true else b.

(** *** Numbers and [Number.prototype.toFixed] *)

(** A Number is given by its exact value when finite. *)
Inductive Number : Type :=
| Finite (q : QArith_base.Q)
| NaN
| Infinity (negative : bool).

(** The first [n] code units of [s], and the others. *)
Fixpoint string_take (n : nat) (s : string) : string :=
  match n, s with
  | O, _ => EmptyString
  | S _, EmptyString => EmptyString
  | S n', String c s' => String c (string_take n' s')
  end.

Fixpoint string_drop (n : nat) (s : string) : string :=
  match n, s with
  | O, _ => s
  | S _, EmptyString => EmptyString
  | S n', String _ s' => string_drop n' s'
  end.

Fixpoint zeros (n : nat) : string :=
  match n with
  | O => EmptyString
  | S n' => String "0" (zeros n')
  end.

(** The decimal representation of a non-negative integer, ["0"] for 0. *)
Definition decimal (n : Z) : string :=
  NilEmpty.string_of_uint (N.to_uint (Z.to_N n)).

(** The integer [n] for which [n / 10^f - x] is as close to zero as
    possible, the larger one if there are two: [floor (x * 10^f + 1/2)]
    for [x = p / q]. *)
Definition nearest_scaled (p : Z) (q : positive) (f : nat) : Z :=
  ((2 * p * 10 ^ Z.of_nat f + Z.pos q) / (2 * Z.pos q))%Z.

(** Steps 10-12 of [toFixed] for [0 <= x < 10^21]. *)
Definition fixed_digits (p : Z) (q : positive) (f : nat) : string :=
  let m := decimal (nearest_scaled p q f) in
  match f with
  | O => m
  | S _ =>
      let k := String.length m in
      let m := if k <=? f then zeros (f + 1 - k) +:+ m else m in
      let k := String.length m in
      string_take (k - f) m +:+ "." +:+ string_drop (k - f) m
  end.

Section ToFixed.
(** [Number::toString] on values of magnitude at least [10^21], which
    [toFixed] falls back to; it prints in exponent notation and is left
    abstract. *)
Variable numberToString : QArith_base.Q -> string.

Definition toFixed (x : Number) (f : nat) : string :=
  match x with
  | NaN => "NaN"
  | Infinity false => "Infinity"
  | Infinity true => "-Infinity"
  | Finite q =>
      let p := QArith_base.Qnum q in
      let d := QArith_base.Qden q in
      let (s, p) := if (p <? 0)%Z then ("-", (- p)%Z) else ("", p) in
      if (10 ^ 21 * Z.pos d <=? p)%Z
      then s +:+ numberToString (QArith_base.Qmake p d)
      else s +:+ fixed_digits p d f
  end.
End ToFixed.

End JS.

(** ** Data model *)

Definition ReportId := nat.
Definition UserId := string.
Definition Timestamp := nat.

(** The four report statuses and the six categories, with the strings that
    stand for them on the wire and in the select boxes. *)
Inductive Status : Type := Registered | InProgress | Resolved | Closed.

Definition status_name (s : Status) : string :=
  match s with
  | Registered => "registered"
  | InProgress => "in_progress"
  | Resolved => "resolved"
  | Closed => "closed"
  end.

Definition all_statuses : list Status := [Registered; InProgress; Resolved; Closed].

Inductive Category : Type := Water | Road | Electricity | Garbage | Streetlight | Other.

Definition category_name (c : Category) : string :=
  match c with
  | Water => "water"
  | Road => "road"
  | Electricity => "electricity"
  | Garbage => "garbage"
  | Streetlight => "streetlight"
  | Other => "other"
  end.

Definition all_categories : list Category :=
  [Water; Road; Electricity; Garbage; Streetlight; Other].

Definition priorities : list string := ["low"; "medium"; "high"].

(** An identity as the identity provider resolves it: [{id, name, role}].
    The same object is the [user] of the client's auth context. *)
Record Identity : Type := mkIdentity {
  user_id : UserId;
  user_name : string;
  role : string
}.

Record Location : Type := mkLocation {
  lat : JS.Number;
  lng : JS.Number;
  address : option string
}.

(** One timeline entry; [entry_actor] is [None] for the "anonymous" actor. *)
Record TimelineEntry : Type := mkEntry {
  entry_status : string;
  entry_comment : option string;
  entry_actor : option UserId;
  entry_timestamp : Timestamp
}.

(** A report, as stored by the manager and as the pages receive it.
    [description] and [created_by_id] may be absent; [assigned_to_name] is
    the display name sent along with [assigned_to]. *)
Record Report : Type := mkReport {
  report_id : ReportId;
  title : string;
  description : option string;
  category : string;
  priority : string;
  location : Location;
  images : list string;
  status : string;
  created_by_id : option UserId;
  assigned_to : option UserId;
  assigned_to_name : option string;
  timeline : list TimelineEntry;
  created_at : Timestamp
}.

Record Comment : Type := mkComment {
  comment_id : nat;
  comment_report_id : ReportId;
  comment_user : UserId;
  comment_text : string;
  comment_created_at : Timestamp
}.

Definition set_status_timeline (r : Report) (s : string) (tl : list TimelineEntry) : Report :=
  {| report_id := report_id r; title := title r; description := description r;
     category := category r; priority := priority r; location := location r;
     images := images r; status := s; created_by_id := created_by_id r;
     assigned_to := assigned_to r; assigned_to_name := assigned_to_name r;
     timeline := tl; created_at := created_at r |}.

Definition set_assigned_to (r : Report) (t : option UserId) (n : option string) : Report :=
  {| report_id := report_id r; title := title r; description := description r;
     category := category r; priority := priority r; location := location r;
     images := images r; status := status r; created_by_id := created_by_id r;
     assigned_to := t; assigned_to_name := n;
     timeline := timeline r; created_at := created_at r |}.

(** ** The Report Lifecycle Manager *)

(** The manager is the REST back end of the pages.  Its code is not among
    the sources, so every definition that carries its behaviour is
    modelled from the specification and says so. *)
Module Manager.

(** Modelled from the spec: the error taxonomy of section 7. *)
Inductive Error : Type := Unauthorized | Forbidden | NotFound | InvalidArgument.

(** An operation returns a value or fails with an error. *)
Inductive result (A : Type) : Type :=
| Ok (a : A)
| Err (e : Error).
Arguments Ok {A} a.
Arguments Err {A} e.

(** The error monad of the operations, with stdpp's [x ← m; k]. *)
Global Instance result_bind : MBind result := fun A B k m =>
  match m with
  | Ok a => k a
  | Err e => Err e
  end.

Global Instance result_ret : MRet result := fun A a => Ok a.

Definition require (b : bool) (e : Error) : result unit :=
  if b then Ok tt else Err e.

(** Modelled from the spec: the two collaborators of section 2, the Report
    Store (reports by id and the append-only list of comments) and the
    identity provider (identities by id). *)
Record Store : Type := mkStore {
  reports : gmap ReportId Report;
  comments : list Comment;
  identities : gmap UserId Identity
}.

Definition with_reports (st : Store) (rs : gmap ReportId Report) : Store :=
  {| reports := rs; comments := comments st; identities := identities st |}.

Definition with_comments (st : Store) (cs : list Comment) : Store :=
  {| reports := reports st; comments := cs; identities := identities st |}.

(** Modelled from the spec: the capability check shared by the mutating
    operations (section 9: one function taking the actor and the required
    roles).  No credential is [Unauthorized], a credential without one of
    the required roles is [Forbidden] (section 7). *)
Definition check_capability (actor : option Identity) (required : list string)
  : result Identity :=
  match actor with
  | None => Err Unauthorized
  | Some a => if bool_decide (role a ∈ required) then Ok a else Err Forbidden
  end.

(** Modelled from the spec: staff are the identities with role admin or
    technician (glossary). *)
Definition staff_roles : list string := ["admin"; "technician"].

(** Modelled from the spec: membership in the status and category
    enumerations of section 3. *)
Definition is_status (s : string) : bool :=
  bool_decide (s ∈ status_name <$> all_statuses).

Definition is_category (s : string) : bool :=
  bool_decide (s ∈ category_name <$> all_categories).

(** Modelled from the spec: a report id that does not resolve is
    [NotFound]. *)
Definition find_report (st : Store) (rid : ReportId) : result Report :=
  match reports st !! rid with
  | Some r => Ok r
  | None => Err NotFound
  end.

(** Modelled from the spec: CreateReport (section 4.1).  The title must be
    non-empty, at most 5 image references are accepted, latitude and
    longitude are required; an invalid or omitted category becomes
    ["other"] and an invalid or omitted priority ["medium"].  The new
    report is [registered] and its timeline is seeded with one entry by
    the actor, or by "anonymous" when there is none. *)
Definition CreateReport (st : Store) (now : Timestamp)
    (title_ : string) (description_ : option string)
    (category_ priority_ : option string)
    (lat_ lng_ : option JS.Number) (address_ : option string)
    (images_ : list string) (actor : option Identity)
  : result (Store * Report) :=
  _ ← require (JS.truthy title_) InvalidArgument;
  _ ← require (length images_ <=? 5) InvalidArgument;
  match lat_, lng_ with
  | Some la, Some lo =>
      let cat := match category_ with
                 | Some c => if is_category c then c else "other"
                 | None => "other"
                 end in
      let pri := match priority_ with
                 | Some p => if bool_decide (p ∈ priorities) then p else "medium"
                 | None => "medium"
                 end in
      let who := user_id <$> actor in
      let rid := fresh (dom (reports st)) in
      let r := {| report_id := rid; title := title_; description := description_;
                  category := cat; priority := pri;
                  location := mkLocation la lo address_;
                  images := images_; status := status_name Registered;
                  created_by_id := who; assigned_to := None; assigned_to_name := None;
                  timeline := [mkEntry (status_name Registered) None who now];
                  created_at := now |} in
      Ok (with_reports st (<[rid := r]> (reports st)), r)
  | _, _ => Err InvalidArgument
  end.

(** Modelled from the spec: AddComment (section 4.1).  [Unauthorized]
    without an actor, [NotFound] for an unknown report, and the text must
    be non-empty; the comment is appended and neither the status nor the
    timeline of the report changes. *)
Definition AddComment (st : Store) (now : Timestamp)
    (rid : ReportId) (actor : option Identity) (text : string)
  : result (Store * Comment) :=
  match actor with
  | None => Err Unauthorized
  | Some a =>
      _ ← find_report st rid;
      _ ← require (JS.truthy text) InvalidArgument;
      let c := mkComment (length (comments st)) rid (user_id a) text now in
      Ok (with_comments st (comments st ++ [c]), c)
  end.

(** Modelled from the spec: UpdateStatus (section 4.1).  [Forbidden]
    unless the actor is admin or technician, [NotFound] for an unknown
    report, [InvalidArgument] for a status outside the enumeration, in
    that order; otherwise one entry is appended to the timeline and the
    status is set.  There is no guard on the transition nor against a
    redundant update. *)
Definition UpdateStatus (st : Store) (now : Timestamp)
    (rid : ReportId) (actor : option Identity)
    (newStatus : string) (comment : option string)
  : result (Store * Report) :=
  a ← check_capability actor staff_roles;
  r ← find_report st rid;
  _ ← require (is_status newStatus) InvalidArgument;
  let e := mkEntry newStatus comment (Some (user_id a)) now in
  let r' := set_status_timeline r newStatus (timeline r ++ [e]) in
  Ok (with_reports st (<[rid := r']> (reports st)), r').

(** Modelled from the spec: AssignTechnician (section 4.1).  [Forbidden]
    unless the actor is admin, [InvalidArgument] unless the target
    resolves to an identity with role technician; a missing report is
    [NotFound] (section 7).  Only [assigned_to] changes; no timeline
    entry is appended. *)
Definition AssignTechnician (st : Store)
    (rid : ReportId) (actor : option Identity) (technicianId : UserId)
  : result (Store * Report) :=
  _ ← check_capability actor ["admin"];
  t ← match identities st !! technicianId with
      | Some t => if bool_decide (role t = "technician") then Ok t else Err InvalidArgument
      | None => Err InvalidArgument
      end;
  r ← find_report st rid;
  let r' := set_assigned_to r (Some technicianId) (Some (user_name t)) in
  Ok (with_reports st (<[rid := r']> (reports st)), r').


(** Modelled from the spec: the case-insensitive substring test, as a
    boolean: the lower-case form of the needle is looked for in the
    lower-case form of the text ([contains_ci_spec] below). *)
Definition contains_ci (hay needle : string) : bool :=
  JS.includes (JS.toLowerCase hay) (JS.toLowerCase needle).




(** The operations as requests, to speak about sequences of calls. *)
Inductive Op : Type :=
| OpCreateReport (now : Timestamp) (title_ : string) (description_ : option string)
    (category_ priority_ : option string) (lat_ lng_ : option JS.Number)
    (address_ : option string) (images_ : list string) (actor : option Identity)
| OpAddComment (now : Timestamp) (rid : ReportId) (actor : option Identity) (text : string)
| OpUpdateStatus (now : Timestamp) (rid : ReportId) (actor : option Identity)
    (newStatus : string) (comment : option string)
| OpAssignTechnician (rid : ReportId) (actor : option Identity) (technicianId : UserId).

(** The outcome of an operation, without its payload. *)
Definition outcome {A : Type} (st : Store) (m : result (Store * A)) : Store * option Error :=
  match m with
  | Ok (st', _) => (st', None)
  | Err e => (st, Some e)
  end.

(** One call: a failed operation leaves the store as it was. *)
Definition step (st : Store) (op : Op) : Store * option Error :=
  match op with
  | OpCreateReport now t d c p la lo ad im a =>
      outcome st (CreateReport st now t d c p la lo ad im a)
  | OpAddComment now rid a text => outcome st (AddComment st now rid a text)
  | OpUpdateStatus now rid a s c => outcome st (UpdateStatus st now rid a s c)
  | OpAssignTechnician rid a t => outcome st (AssignTechnician st rid a t)
  end.

Definition run (st : Store) (ops : list Op) : Store :=
  fold_left (fun s op => fst (step s op)) ops st.

(** Whether a call with outcome [e] is an accepted UpdateStatus on [rid]. *)
Definition counts (op : Op) (e : option Error) (rid : ReportId) : nat :=
  match op, e with
  | OpUpdateStatus _ rid' _ _ _, None => if decide (rid' = rid) then 1 else 0
  | _, _ => 0
  end.

(** The number of calls of [ops], run from [st], that are accepted
    UpdateStatus calls on [rid]. *)
Fixpoint accepted_updates (st : Store) (ops : list Op) (rid : ReportId) : nat :=
  match ops with
  | [] => 0
  | op :: ops' =>
      counts op (snd (step st op)) rid + accepted_updates (fst (step st op)) ops' rid
  end.

(** A store with no report yet, over a fixed identity provider. *)
Definition empty_store (ids : gmap UserId Identity) : Store :=
  {| reports := ∅; comments := []; identities := ids |}.

End Manager.


(** ** The pages *)

(** *** Requests and other effects of the handlers *)

Definition File := string.

Inductive Method : Type := GET | POST | PUT.

(** The endpoints under [API_URL], and the reverse-geocoding service. *)
Inductive Endpoint : Type :=
| ReportsUrl (status_param category_param : option string)
| ReportUrl (rid : ReportId)
| CommentsUrl (rid : ReportId)
| StatusUrl (rid : ReportId)
| AssignUrl (rid : ReportId)
| AnalyticsUrl
| UsersUrl
| NominatimReverse (lat_ lng_ : JS.Number).

Inductive Body : Type :=
| NoBody
| CommentBody (text : string)
| StatusBody (status_ comment_ : string)
| AssignBody (assigned_to_id : UserId)
| ReportForm (title_ description_ category_ priority_ : string)
    (lat_ lng_ : JS.Number) (address_ : option string) (images_ : list File).

(** [authorization] is [None] without an Authorization header and
    [Some token] for [Bearer ${token}], where the token itself may be null. *)
Inductive Effect : Type :=
| Request (m : Method) (url : Endpoint) (body : Body) (authorization : option (option string))
| ToastError (msg : string)
| ToastSuccess (msg : string)
| ConsoleError (msg : string)
| Navigate (path : string)
| NavigateReport (rid : ReportId)
| PreventDefault.

(** What an awaited request settles to. *)
Inductive Response (A : Type) : Type :=
| Fulfilled (data : A)
| Rejected.
Arguments Fulfilled {A} data.
Arguments Rejected {A}.

Definition is_request (e : Effect) : bool :=
  match e with
  | Request _ _ _ _ => true
  | _ => false
  end.

(** A rendered control: absent from the tree, or present and possibly
    disabled. *)
Inductive Control : Type := NotRendered | Rendered (disabled : bool).

Definition enabled (c : Control) : bool :=
  match c with
  | Rendered false => true
  | _ => false
  end.

(** [user && (user.role === 'admin' || user.role === 'technician')] *)
Definition is_staff (user : option Identity) : bool :=
  match user with
  | Some u => bool_decide (role u = "admin") || bool_decide (role u = "technician")
  | None => false
  end.

(** *** pages/Dashboard.js *)
Module Dashboard.

Record State : Type := mkState {
  reports : list Report;
  loading : bool;
  statusFilter : string;
  categoryFilter : string;
  searchTerm : string
}.

Definition initial : State :=
  {| reports := []; loading := true; statusFilter := ""; categoryFilter := ""; searchTerm := "" |}.

(** [if (x) params.k = x] *)
Definition param (x : string) : option string :=
  if JS.truthy x then Some x else None.

Definition fetchReports (st : State) (resp : Response (list Report)) : State * list Effect :=
  let req := Request GET (ReportsUrl (param (statusFilter st)) (param (categoryFilter st))) NoBody None in
  match resp with
  | Fulfilled data =>
      ({| reports := data; loading := false; statusFilter := statusFilter st;
          categoryFilter := categoryFilter st; searchTerm := searchTerm st |},
       [req])
  | Rejected =>
      ({| reports := reports st; loading := false; statusFilter := statusFilter st;
          categoryFilter := categoryFilter st; searchTerm := searchTerm st |},
       [req; ToastError "Failed to fetch reports"])
  end.

(** [report.title.toLowerCase().includes(term.toLowerCase()) ||
     report.description?.toLowerCase().includes(term.toLowerCase())];
    the optional chain is [undefined] when the description is absent. *)
Definition matchesSearch (searchTerm_ : string) (report : Report) : option bool :=
  JS.or_js
    (JS.includes (JS.toLowerCase (title report)) (JS.toLowerCase searchTerm_))
    ((fun d => JS.includes (JS.toLowerCase d) (JS.toLowerCase searchTerm_)) <$> description report).

Definition filteredReports (searchTerm_ : string) (reports_ : list Report) : list Report :=
  List.filter (fun report => JS.truthy_opt (matchesSearch searchTerm_ report)) reports_.

Definition myReports (user : option Identity) (searchTerm_ : string) (reports_ : list Report)
  : list Report :=
  match user with
  | Some u =>
      List.filter (fun r => bool_decide (created_by_id r = Some (user_id u)))
        (filteredReports searchTerm_ reports_)
  | None => []
  end.

(** The cards of the grid: [(user ? myReports : filteredReports)]. *)
Definition shown (user : option Identity) (st : State) : list Report :=
  match user with
  | Some _ => myReports user (searchTerm st) (reports st)
  | None => filteredReports (searchTerm st) (reports st)
  end.

End Dashboard.

(** *** pages/ReportDetail.js *)
Module ReportDetail.

Record State : Type := mkState {
  report : option Report;
  comments : list Comment;
  newComment : string;
  newStatus : string;
  statusComment : string;
  loading : bool
}.

Definition initial : State :=
  {| report := None; comments := []; newComment := ""; newStatus := "";
     statusComment := ""; loading := true |}.

Section Page.
(** The report id of the route and the auth context. *)
Variable id : ReportId.
Variable user : option Identity.
Variable token : option string.

(** A fetch issues its GET at once and settles later: the effects of
    [settleReport] and [settleComments] are those that follow the response. *)
Definition settleReport (st : State) (resp : Response Report) : State * list Effect :=
  match resp with
  | Fulfilled data =>
      ({| report := Some data; comments := comments st; newComment := newComment st;
          newStatus := status data; statusComment := statusComment st; loading := false |},
       [])
  | Rejected =>
      ({| report := report st; comments := comments st; newComment := newComment st;
          newStatus := newStatus st; statusComment := statusComment st; loading := false |},
       [ToastError "Failed to fetch report"])
  end.

Definition fetchReport (st : State) (resp : Response Report) : State * list Effect :=
  let (st', fx) := settleReport st resp in
  (st', Request GET (ReportUrl id) NoBody None :: fx).

Definition settleComments (st : State) (resp : Response (list Comment)) : State * list Effect :=
  match resp with
  | Fulfilled data =>
      ({| report := report st; comments := data; newComment := newComment st;
          newStatus := newStatus st; statusComment := statusComment st; loading := loading st |},
       [])
  | Rejected => (st, [ConsoleError "Failed to fetch comments:"])
  end.

Definition fetchComments (st : State) (resp : Response (list Comment)) : State * list Effect :=
  let (st', fx) := settleComments st resp in
  (st', Request GET (CommentsUrl id) NoBody None :: fx).

(** [posted] settles the POST; [refetched] settles the GET of the
    [fetchComments] call that follows a successful POST. *)
Definition handleAddComment (st : State)
    (posted : Response unit) (refetched : Response (list Comment)) : State * list Effect :=
  match user with
  | None => (st, [PreventDefault; ToastError "Please login to add comments"])
  | Some _ =>
      let req := Request POST (CommentsUrl id) (CommentBody (newComment st)) (Some token) in
      match posted with
      | Fulfilled _ =>
          let st1 := {| report := report st; comments := comments st; newComment := "";
                        newStatus := newStatus st; statusComment := statusComment st;
                        loading := loading st |} in
          let (st2, fx) := settleComments st1 refetched in
          (st2, [PreventDefault; req; Request GET (CommentsUrl id) NoBody None;
                 ToastSuccess "Comment added"] ++ fx)
      | Rejected => (st, [PreventDefault; req; ToastError "Failed to add comment"])
      end
  end.

(** [!user || (user.role !== 'admin' && user.role !== 'technician')] *)
Definition lacksPermission : bool :=
  match user with
  | None => true
  | Some u => negb (bool_decide (role u = "admin")) && negb (bool_decide (role u = "technician"))
  end.

(** [put] settles the PUT; [refetched] settles the GET of the
    [fetchReport] call that follows a successful PUT. *)
Definition handleStatusUpdate (st : State)
    (put : Response unit) (refetched : Response Report) : State * list Effect :=
  if lacksPermission
  then (st, [ToastError "You do not have permission to update status"])
  else
    let req := Request PUT (StatusUrl id) (StatusBody (newStatus st) (statusComment st))
                 (Some token) in
    match put with
    | Fulfilled _ =>
        let st1 := {| report := report st; comments := comments st; newComment := newComment st;
                      newStatus := newStatus st; statusComment := ""; loading := loading st |} in
        let (st2, fx) := settleReport st1 refetched in
        (st2, [req; Request GET (ReportUrl id) NoBody None;
               ToastSuccess "Status updated"] ++ fx)
    | Rejected => (st, [req; ToastError "Failed to update status"])
    end.

(** The controls of the rendered tree. *)
Inductive View : Type :=
| Spinner
| ReportNotFound
| Page (addCommentBtn updateStatusBtn : Control).

(** [disabled={!newComment.trim()}] inside [{user && (<form ...>)}] *)
Definition addCommentBtn (st : State) : Control :=
  match user with
  | Some _ => Rendered (negb (JS.truthy (JS.trim (newComment st))))
  | None => NotRendered
  end.

(** [disabled={newStatus === report.status && !statusComment}] inside the
    staff-only card. *)
Definition updateStatusBtn (st : State) (r : Report) : Control :=
  if is_staff user
  then Rendered (bool_decide (newStatus st = status r) && negb (JS.truthy (statusComment st)))
  else NotRendered.

Definition render (st : State) : View :=
  if loading st then Spinner
  else match report st with
       | None => ReportNotFound
       | Some r => Page (addCommentBtn st) (updateStatusBtn st r)
       end.

(** What the user can do on the page.  A button that is not rendered or is
    disabled fires nothing; the comment form has no other submit control. *)
Inductive Event : Type :=
| TypeComment (text : string)
| SelectStatus (value : string)
| TypeStatusComment (text : string)
| SubmitComment (posted : Response unit) (refetched : Response (list Comment))
| ClickUpdateStatus (put : Response unit) (refetched : Response Report).

Definition on (st : State) (ev : Event) : State * list Effect :=
  match ev, render st with
  | TypeComment text, Page (Rendered _) _ =>
      ({| report := report st; comments := comments st; newComment := text;
          newStatus := newStatus st; statusComment := statusComment st;
          loading := loading st |}, [])
  | SelectStatus value, Page _ (Rendered _) =>
      ({| report := report st; comments := comments st; newComment := newComment st;
          newStatus := value; statusComment := statusComment st; loading := loading st |}, [])
  | TypeStatusComment text, Page _ (Rendered _) =>
      ({| report := report st; comments := comments st; newComment := newComment st;
          newStatus := newStatus st; statusComment := text; loading := loading st |}, [])
  | SubmitComment posted refetched, Page c _ =>
      if enabled c then handleAddComment st posted refetched else (st, [])
  | ClickUpdateStatus put refetched, Page _ c =>
      if enabled c then handleStatusUpdate st put refetched else (st, [])
  | _, _ => (st, [])
  end.

End Page.
End ReportDetail.


(** *** pages/CreateReport.js *)
Module CreateReport.

Record State : Type := mkState {
  title_input : string;
  description_input : string;
  category_input : string;
  priority_input : string;
  position : option (JS.Number * JS.Number);
  address_input : option string;
  images_input : list File;
  loading : bool
}.

Definition initial : State :=
  {| title_input := ""; description_input := ""; category_input := "other";
     priority_input := "medium"; position := None; address_input := Some "";
     images_input := []; loading := false |}.

Definition setPosition (st : State) (p : JS.Number * JS.Number) : State :=
  {| title_input := title_input st; description_input := description_input st;
     category_input := category_input st; priority_input := priority_input st;
     position := Some p; address_input := address_input st;
     images_input := images_input st; loading := loading st |}.

(** [setAddress(v)], where [v] may be [undefined]. *)
Definition setAddress (st : State) (v : option string) : State :=
  {| title_input := title_input st; description_input := description_input st;
     category_input := category_input st; priority_input := priority_input st;
     position := position st; address_input := v;
     images_input := images_input st; loading := loading st |}.

Definition setLoading (st : State) (b : bool) : State :=
  {| title_input := title_input st; description_input := description_input st;
     category_input := category_input st; priority_input := priority_input st;
     position := position st; address_input := address_input st;
     images_input := images_input st; loading := b |}.

Definition setImages (st : State) (l : list File) : State :=
  {| title_input := title_input st; description_input := description_input st;
     category_input := category_input st; priority_input := priority_input st;
     position := position st; address_input := address_input st;
     images_input := l; loading := loading st |}.

Section Page.
Variable numberToString : QArith_base.Q -> string.
Variable token : option string.

(** The template literal of the fallback. *)
Definition coordinates (lat_ lng_ : JS.Number) : string :=
  JS.toFixed numberToString lat_ 6 +:+ ", " +:+ JS.toFixed numberToString lng_ 6.

(** [reverseGeocode(lat, lng, setAddress)].  The response carries
    [response.data], which may be null, and in it [display_name], which
    may be missing; reading [display_name] of a null [data] throws inside
    the [try].  The result is the value handed to [setAddress] and the
    effects performed. *)
Definition reverseGeocode (lat_ lng_ : JS.Number)
    (resp : Response (option (option string))) : option string * list Effect :=
  let req := Request GET (NominatimReverse lat_ lng_) NoBody None in
  match resp with
  | Fulfilled (Some display_name) => (display_name, [req])
  | Fulfilled None | Rejected =>
      (Some (coordinates lat_ lng_), [req; ConsoleError "Reverse geocoding failed:"])
  end.

(** The [click] handler of [LocationMarker]. *)
Definition click (st : State) (lat_ lng_ : JS.Number)
    (resp : Response (option (option string))) : State * list Effect :=
  let (a, fx) := reverseGeocode lat_ lng_ resp in
  (setAddress (setPosition st (lat_, lng_)) a, fx).

(** What [navigator.geolocation] answers on mount. *)
Inductive Geolocation : Type :=
| Located (latitude longitude : JS.Number) (resp : Response (option (option string)))
| GeolocationError
| GeolocationMissing.

Definition newYork : JS.Number * JS.Number :=
  (JS.Finite (QArith_base.Qmake 407128 10000), JS.Finite (QArith_base.Qmake (-740060) 10000)).

(** The mount effect. *)
Definition locate (st : State) (g : Geolocation) : State * list Effect :=
  match g with
  | Located latitude longitude resp =>
      let (a, fx) := reverseGeocode latitude longitude resp in
      (setAddress (setPosition st (latitude, longitude)) a, fx)
  | GeolocationError =>
      (setAddress (setPosition st newYork) (Some "Location not detected"),
       [ConsoleError "Geolocation error:"])
  | GeolocationMissing =>
      (setAddress (setPosition st newYork) (Some "Geolocation not supported"), [])
  end.

Definition handleImageSelect (st : State) (files : list File) : State * list Effect :=
  if 5 <? length (images_input st) + length files
  then (st, [ToastError "Maximum 5 images allowed"])
  else (setImages st (images_input st ++ files), []).

(** [l.filter((_, i) => p(i))], counting positions from [i]. *)
Fixpoint filter_index {A : Type} (p : nat -> bool) (i : nat) (l : list A) : list A :=
  match l with
  | [] => []
  | x :: l' => if p i then x :: filter_index p (S i) l' else filter_index p (S i) l'
  end.

Definition removeImage (st : State) (index : nat) : State :=
  setImages st (filter_index (fun i => negb (i =? index)) 0 (images_input st)).

(** [resp] settles the POST with the id of the new report; [detail] is
    [error.response?.data?.detail] of a failure.  [loading] is set while
    the request is pending and reset in the [finally]. *)
Definition handleSubmit (st : State) (resp : Response ReportId) (detail : option string)
  : State * list Effect :=
  match position st with
  | None => (st, [PreventDefault; ToastError "Please select a location on the map"])
  | Some (la, lo) =>
      let headers := match token with
                     | Some t => if JS.truthy t then Some token else None
                     | None => None
                     end in
      let req := Request POST (ReportsUrl None None)
                   (ReportForm (title_input st) (description_input st) (category_input st)
                      (priority_input st) la lo (address_input st) (images_input st))
                   headers in
      match resp with
      | Fulfilled rid =>
          (setLoading st false,
           [PreventDefault; req; ToastSuccess "Report created successfully!";
            NavigateReport rid])
      | Rejected =>
          let msg := match detail with
                     | Some d => if JS.truthy d then d else "Failed to create report"
                     | None => "Failed to create report"
                     end in
          (setLoading st false,
           [PreventDefault; req; ConsoleError "Failed to create report:"; ToastError msg])
      end
  end.

(** The two image operations of the form. *)
Inductive ImageOp : Type :=
| Select (files : list File)
| Remove (index : nat).

Definition image_op (st : State) (op : ImageOp) : State :=
  match op with
  | Select files => fst (handleImageSelect st files)
  | Remove index => removeImage st index
  end.

End Page.
End CreateReport.

(** *** pages/AdminDashboard.js *)
Module AdminDashboard.

Record Analytics : Type := mkAnalytics {
  total_reports : nat;
  open_reports : nat;
  resolved_reports : nat
}.

Record State : Type := mkState {
  reports : list Report;
  analytics : option Analytics;
  users : list Identity;
  loading : bool;
  statusFilter : string;
  categoryFilter : string;
  searchTerm : string
}.

Definition initial : State :=
  {| reports := []; analytics := None; users := []; loading := true;
     statusFilter := ""; categoryFilter := ""; searchTerm := "" |}.

Definition with_filters (st : State) (sf cf term : string) : State :=
  {| reports := reports st; analytics := analytics st; users := users st;
     loading := loading st; statusFilter := sf; categoryFilter := cf; searchTerm := term |}.

Section Page.
Variable user : option Identity.
Variable token : option string.

Definition Data : Type := list Report * Analytics * list Identity.

(** The three GETs of [Promise.all], in the order they are issued. *)
Definition fetchData_requests : list Effect :=
  [Request GET (ReportsUrl None None) NoBody None;
   Request GET AnalyticsUrl NoBody (Some token);
   Request GET UsersUrl NoBody (Some token)].

Definition settleData (st : State) (resp : Response Data) : State * list Effect :=
  match resp with
  | Fulfilled (rs, an, us) =>
      ({| reports := rs; analytics := Some an; users := us; loading := false;
          statusFilter := statusFilter st; categoryFilter := categoryFilter st;
          searchTerm := searchTerm st |}, [])
  | Rejected =>
      ({| reports := reports st; analytics := analytics st; users := users st;
          loading := false; statusFilter := statusFilter st;
          categoryFilter := categoryFilter st; searchTerm := searchTerm st |},
       [ToastError "Failed to fetch data"])
  end.

Definition fetchData (st : State) (resp : Response Data) : State * list Effect :=
  let (st', fx) := settleData st resp in
  (st', fetchData_requests ++ fx).

(** [user?.role !== 'admin'] *)
Definition not_admin : bool :=
  negb (bool_decide (role <$> user = Some "admin")).

(** The body of the effect on [user]. *)
Definition accessEffect (st : State) (resp : Response Data) : State * list Effect :=
  if not_admin
  then (st, [ToastError "Access denied"; Navigate "/dashboard"])
  else fetchData st resp.

Definition handleAssign (st : State) (reportId : ReportId) (technicianId : UserId)
    (put : Response unit) (refetched : Response Data) : State * list Effect :=
  let req := Request PUT (AssignUrl reportId) (AssignBody technicianId) (Some token) in
  match put with
  | Fulfilled _ =>
      let (st', fx) := settleData st refetched in
      (st', [req; ToastSuccess "Report assigned successfully"] ++ fetchData_requests ++ fx)
  | Rejected => (st, [req; ToastError "Failed to assign report"])
  end.

Definition matchesSearch (searchTerm_ : string) (report : Report) : option bool :=
  JS.or_js
    (JS.includes (JS.toLowerCase (title report)) (JS.toLowerCase searchTerm_))
    ((fun d => JS.includes (JS.toLowerCase d) (JS.toLowerCase searchTerm_)) <$> description report).

(** [!filter || filter === 'all' || value === filter] *)
Definition matchesSelect (filter_ value : string) : bool :=
  negb (JS.truthy filter_) || bool_decide (filter_ = "all") || bool_decide (value = filter_).

(** [matchesSearch && matchesStatus && matchesCategory]; a falsy left
    operand of [&&] is the result, and [filter] keeps the truthy ones. *)
Definition keeps (searchTerm_ statusFilter_ categoryFilter_ : string) (report : Report) : bool :=
  JS.truthy_opt (matchesSearch searchTerm_ report)
  && matchesSelect statusFilter_ (status report)
  && matchesSelect categoryFilter_ (category report).

Definition filteredReports (searchTerm_ statusFilter_ categoryFilter_ : string)
    (reports_ : list Report) : list Report :=
  List.filter (keeps searchTerm_ statusFilter_ categoryFilter_) reports_.

Definition technicians (users_ : list Identity) : list Identity :=
  List.filter (fun u => bool_decide (role u = "technician")) users_.

(** One row of the table: the report and the items of its assign select,
    which is rendered only while [assigned_to_name] is falsy. *)
Definition assignItems (st : State) (report : Report) : list Identity :=
  match assigned_to_name report with
  | Some n => if JS.truthy n then [] else technicians (users st)
  | None => technicians (users st)
  end.

Inductive View : Type :=
| Spinner
| Table (rows : list (Report * list Identity)).

Definition render (st : State) : View :=
  if loading st then Spinner
  else Table ((fun r => (r, assignItems st r)) <$>
                filteredReports (searchTerm st) (statusFilter st) (categoryFilter st) (reports st)).

(** Whether the select of report [rid] is on the page and offers [value]. *)
Definition offers (v : View) (rid : ReportId) (value : UserId) : bool :=
  match v with
  | Spinner => false
  | Table rows =>
      existsb (fun row => bool_decide (report_id (fst row) = rid)
                          && bool_decide (value ∈ user_id <$> snd row)) rows
  end.

(** What can happen to the mounted page: the effect on [user] runs, a
    filter input changes, or an item of an assign select is chosen. *)
Inductive Event : Type :=
| RunEffect (resp : Response Data)
| SetSearchTerm (value : string)
| SetStatusFilter (value : string)
| SetCategoryFilter (value : string)
| ChooseTechnician (rid : ReportId) (value : UserId)
    (put : Response unit) (refetched : Response Data).

Definition on (st : State) (ev : Event) : State * list Effect :=
  match ev with
  | RunEffect resp => accessEffect st resp
  | SetSearchTerm v =>
      if loading st then (st, [])
      else (with_filters st (statusFilter st) (categoryFilter st) v, [])
  | SetStatusFilter v =>
      if loading st then (st, [])
      else (with_filters st v (categoryFilter st) (searchTerm st), [])
  | SetCategoryFilter v =>
      if loading st then (st, [])
      else (with_filters st (statusFilter st) v (searchTerm st), [])
  | ChooseTechnician rid value put refetched =>
      if offers (render st) rid value
      then handleAssign st rid value put refetched
      else (st, [])
  end.

(** The page from mount on: the state and everything done so far. *)
Fixpoint play (st : State) (evs : list Event) : State * list Effect :=
  match evs with
  | [] => (st, [])
  | ev :: evs' =>
      let (st1, fx1) := on st ev in
      let (st2, fx2) := play st1 evs' in
      (st2, fx1 ++ fx2)
  end.

End Page.
End AdminDashboard.

(** *** context/AuthContext.js *)
Module AuthContext.

(** What [/auth/login] and [/auth/signup] answer. *)
Record AuthData : Type := mkAuthData {
  access_token : string;
  auth_user : Identity
}.

(** The state of the provider, and the ['token'] item of [localStorage]. *)
Record State : Type := mkState {
  user : option Identity;
  loading : bool;
  token : option string;
  stored : option string
}.

Inductive Effect : Type :=
| GetMe (bearer : option string)
| PostLogin (email password : string)
| PostSignup (name_ email password phone role_ : string)
| LogError (msg : string).

(** The initial state: [useState(localStorage.getItem('token'))]. *)
Definition initial (item : option string) : State :=
  {| user := None; loading := true; token := item; stored := item |}.

Definition setLoading (st : State) (b : bool) : State :=
  {| user := user st; loading := b; token := token st; stored := stored st |}.

Definition logout (st : State) : State :=
  {| user := None; loading := loading st; token := None; stored := None |}.

Definition fetchUser (st : State) (resp : Response Identity) : State * list Effect :=
  match resp with
  | Fulfilled data =>
      ({| user := Some data; loading := false; token := token st; stored := stored st |},
       [GetMe (token st)])
  | Rejected =>
      (setLoading (logout st) false, [GetMe (token st); LogError "Failed to fetch user:"])
  end.

(** [if (token)]: a token that is null or the empty string is falsy. *)
Definition has_token (st : State) : bool :=
  match token st with
  | Some t => JS.truthy t
  | None => false
  end.

(** The body of the effect on [token]. *)
Definition tokenEffect (st : State) (resp : Response Identity) : State * list Effect :=
  if has_token st then fetchUser st resp else (setLoading st false, []).

(** The effect runs again whenever it left [token] changed, which happens
    when [fetchUser] fails and logs out; the token is then null and the
    second run makes no request. *)
Definition runEffect (st : State) (resp : Response Identity) : State * list Effect :=
  let (st1, fx1) := tokenEffect st resp in
  if decide (token st1 = token st) then (st1, fx1)
  else let (st2, fx2) := tokenEffect st1 resp in (st2, fx1 ++ fx2).

(** [login] and [signup] store the token and return [response.data]; a
    rejected request throws before anything is stored ([None]). *)
Definition store_token (st : State) (resp : Response AuthData) : State * option AuthData :=
  match resp with
  | Fulfilled data =>
      ({| user := user st; loading := loading st;
          token := Some (access_token data); stored := Some (access_token data) |},
       Some data)
  | Rejected => (st, None)
  end.

Definition login (st : State) (email password : string) (resp : Response AuthData)
  : State * list Effect * option AuthData :=
  let (st', r) := store_token st resp in (st', [PostLogin email password], r).

Definition signup (st : State) (name_ email password phone role_ : string)
    (resp : Response AuthData) : State * list Effect * option AuthData :=
  let (st', r) := store_token st resp in (st', [PostSignup name_ email password phone role_], r).

(** What happens to the mounted provider.  [me] settles the [/auth/me]
    request of the effect, which runs when the call changed [token].  An
    event is taken together with the answers to the requests it issues:
    requests that overlap, and answers that arrive out of order, are not
    described by [on], so only what holds whatever the order of the state
    updates (the token and its stored copy, the loading flag) is stated
    about sequences of events. *)
Inductive Event : Type :=
| Login (email password : string) (resp : Response AuthData) (me : Response Identity)
| Signup (name_ email password phone role_ : string)
    (resp : Response AuthData) (me : Response Identity)
| Logout.

Definition afterChange (old : option string) (st : State) (me : Response Identity)
  : State * list Effect :=
  if decide (token st = old) then (st, []) else runEffect st me.

Definition on (st : State) (ev : Event) : State * list Effect :=
  match ev with
  | Login email password resp me =>
      let '(st1, fx1, _) := login st email password resp in
      let (st2, fx2) := afterChange (token st) st1 me in
      (st2, fx1 ++ fx2)
  | Signup name_ email password phone role_ resp me =>
      let '(st1, fx1, _) := signup st name_ email password phone role_ resp in
      let (st2, fx2) := afterChange (token st) st1 me in
      (st2, fx1 ++ fx2)
  | Logout => afterChange (token st) (logout st) Rejected
  end.

(** The provider after mount (the first run of the effect, settled by
    [me]) and a sequence of events. *)
Definition mount (item : option string) (me : Response Identity) : State :=
  fst (runEffect (initial item) me).

Definition play (st : State) (evs : list Event) : State :=
  fold_left (fun s ev => fst (on s ev)) evs st.

End AuthContext.

(** *** App.js *)
Module App.

Inductive Route : Type :=
| LandingRoute
| LoginRoute
| SignupRoute
| DashboardRoute
| CreateReportRoute
| ReportRoute (id : ReportId)
| AdminRoute.

Inductive Element : Type :=
| LoadingSpinner
| PageOf (r : Route)
| NavigateTo (r : Route).

Definition ProtectedRoute (user : option Identity) (loading : bool) (children : Element)
  : Element :=
  if loading then LoadingSpinner
  else match user with
       | Some _ => children
       | None => NavigateTo LoginRoute
       end.

(** The element of each route of [<Routes>]. *)
Definition element (auth : AuthContext.State) (r : Route) : Element :=
  match r with
  | DashboardRoute | AdminRoute =>
      ProtectedRoute (AuthContext.user auth) (AuthContext.loading auth) (PageOf r)
  | _ => PageOf r
  end.

End App.

(** *** The events of pages/Dashboard.js *)
Module DashboardPage.

Definition with_filters (st : Dashboard.State) (sf cf term : string) : Dashboard.State :=
  {| Dashboard.reports := Dashboard.reports st; Dashboard.loading := Dashboard.loading st;
     Dashboard.statusFilter := sf; Dashboard.categoryFilter := cf;
     Dashboard.searchTerm := term |}.

(** The effect on [statusFilter, categoryFilter] runs on mount and after a
    change of either; [resp] settles its GET. *)
Inductive Event : Type :=
| Mount (resp : Response (list Report))
| SetSearchTerm (value : string)
| SetStatusFilter (value : string) (resp : Response (list Report))
| SetCategoryFilter (value : string) (resp : Response (list Report)).

Definition on (st : Dashboard.State) (ev : Event) : Dashboard.State * list Effect :=
  match ev with
  | Mount resp => Dashboard.fetchReports st resp
  | SetSearchTerm v =>
      (with_filters st (Dashboard.statusFilter st) (Dashboard.categoryFilter st) v, [])
  | SetStatusFilter v resp =>
      let st1 := with_filters st v (Dashboard.categoryFilter st) (Dashboard.searchTerm st) in
      if decide (v = Dashboard.statusFilter st) then (st1, [])
      else Dashboard.fetchReports st1 resp
  | SetCategoryFilter v resp =>
      let st1 := with_filters st (Dashboard.statusFilter st) v (Dashboard.searchTerm st) in
      if decide (v = Dashboard.categoryFilter st) then (st1, [])
      else Dashboard.fetchReports st1 resp
  end.

End DashboardPage.

(** *** What the pages display *)
Module Display.









(** The conditional of the priority badge (ReportDetail.js and the admin
    table). *)
Definition priorityClass (priority_ : string) : string :=
  if decide (priority_ = "high") then "bg-red-100 text-red-700"
  else if decide (priority_ = "medium") then "bg-yellow-100 text-yellow-700"
  else "bg-green-100 text-green-700".

(** [report.description || 'No description provided'] *)
Definition descriptionText (report : Report) : string :=
  match description report with
  | Some d => if JS.truthy d then d else "No description provided"
  | None => "No description provided"
  end.

(** The upload tile of the report form: [images.length < 5 && ...]. *)
Definition uploadTile (st : CreateReport.State) : bool :=
  length (CreateReport.images_input st) <? 5.

End Display.

(** * Vocabulary of the properties *)

(** ** Strings *)

(** [needle] matches in [hay] ignoring case, in the sense of the pages:
    the lower-case form of [needle] is a substring of the lower-case form
    of [hay]. *)
Definition occurs_lowercased (needle hay : string) : Prop :=
  ∃ pre post, JS.toLowerCase hay = pre +:+ JS.toLowerCase needle +:+ post.


(** A string of white space only. *)
Fixpoint blank (s : string) : bool :=
  match s with
  | EmptyString => true
  | String c s' => JS.is_white c && blank s'
  end.

Definition is_digit (c : ascii) : bool :=
  let n := nat_of_ascii c in (48 <=? n) && (n <=? 57).

Fixpoint all_digits (s : string) : bool :=
  match s with
  | EmptyString => true
  | String c s' => is_digit c && all_digits s'
  end.

(** The number a string of decimal digits denotes, read with the standard
    library's parser; leading zeros are allowed. *)
Definition numeral_value (s : string) : option N :=
  N.of_uint <$> NilEmpty.uint_of_string s.

(** A number in fixed notation with [f] decimal places: an optional minus
    sign, at least one digit, a point, and exactly [f] digits. *)
Definition fixed_notation (f : nat) (s : string) : Prop :=
  ∃ sign int frac,
    s = sign +:+ int +:+ "." +:+ frac
    ∧ (sign = "" ∨ sign = "-")
    ∧ int ≠ "" ∧ all_digits int = true
    ∧ all_digits frac = true ∧ String.length frac = f.

(** The finite numbers below [10^21] in magnitude, where [toFixed] prints
    fixed notation; every latitude and longitude is one. *)
Definition fixed_range (x : JS.Number) : Prop :=
  match x with
  | JS.Finite q =>
      (Z.abs (QArith_base.Qnum q) < 10 ^ 21 * Z.pos (QArith_base.Qden q))%Z
  | _ => False
  end.

(** ** Stores *)

(** The status of a report is the status of the last entry of its
    (non-empty) timeline. *)
Definition tracks (r : Report) : Prop :=
  ∃ e, last (timeline r) = Some e ∧ status r = entry_status e.

Definition consistent (st : Manager.Store) : Prop :=
  ∀ rid r, Manager.reports st !! rid = Some r → tracks r.

(** The length a timeline has, or will have once the report exists. *)
Definition timeline_length (st : Manager.Store) (rid : ReportId) : nat :=
  match Manager.reports st !! rid with
  | Some r => length (timeline r)
  | None => 1
  end.

(** ** Sessions *)

(** The token in the state is the one in [localStorage]. *)
Definition in_sync (st : AuthContext.State) : Prop :=
  AuthContext.token st = AuthContext.stored st.

(** ** The report form *)

(** The Authorization header of the report form: [token ? {...} : {}]. *)
Definition form_authorization (token : option string) : option (option string) :=
  match token with
  | Some t => if JS.truthy t then Some (Some t) else None
  | None => None
  end.

(** [s] prints [|p / d|] rounded to [f] decimal places, half away from
    zero, with a minus sign for a negative number: its digits, the point
    left out, are the decimal numeral of an integer [n] that is nearest to
    [|p / d| * 10^f]. *)
Definition prints_rounded (f : nat) (p : Z) (d : positive) (s : string) : Prop :=
  ∃ int frac n,
    s = (if (p <? 0)%Z then "-" else "") +:+ int +:+ "." +:+ frac
    ∧ String.length frac = f
    ∧ numeral_value (int +:+ frac) = Some (Z.to_N n)
    ∧ (0 ≤ n)%Z
    ∧ (2 * Z.pos d * n - Z.pos d ≤ 2 * Z.abs p * 10 ^ Z.of_nat f < 2 * Z.pos d * n + Z.pos d)%Z.

(** ** Select boxes and the search box *)



(** ** Sample data *)

Definition sample_admin : Identity := mkIdentity "u1" "Asha" "admin".
Definition sample_technician : Identity := mkIdentity "u2" "Ravi" "technician".
Definition sample_user : Identity := mkIdentity "u3" "Mina" "user".

Definition sample_identities : gmap UserId Identity :=
  <["u1" := sample_admin]> (<["u2" := sample_technician]> (<["u3" := sample_user]> ∅)).

Definition sample_location : Location :=
  mkLocation (JS.Finite (QArith_base.Qmake 40 1)) (JS.Finite (QArith_base.Qmake (-75) 1))
    (Some "123 Main St").

(** An anonymous report is created, an admin moves it to in_progress, a
    plain user is refused, and a technician resolves it. *)
Definition sample_ops : list Manager.Op :=
  [ Manager.OpCreateReport 10 "Pothole on Main St" None (Some "road") (Some "high")
      (Some (lat sample_location)) (Some (lng sample_location))
      (address sample_location) [] None;
    Manager.OpUpdateStatus 11 0 (Some sample_admin) "in_progress" None;
    Manager.OpUpdateStatus 12 0 (Some sample_user) "closed" None;
    Manager.OpUpdateStatus 13 0 (Some sample_technician) "resolved" (Some "Fixed") ].

(** The store after [sample_ops] and its one report. *)
Definition sample_store : Manager.Store :=
  Manager.run (Manager.empty_store sample_identities) sample_ops.

Definition sample_resolved_report : Report :=
  mkReport 0 "Pothole on Main St" None "road" "high" sample_location
    [] "resolved" None None None
    [mkEntry "registered" None None 10;
     mkEntry "in_progress" None (Some "u1") 11;
     mkEntry "resolved" (Some "Fixed") (Some "u2") 13] 10.

Definition sample_anonymous_report : Report :=
  mkReport 0 "Pothole on Main St" None "road" "high" sample_location
    [] "registered" None None None [mkEntry "registered" None None 10] 10.

Definition sample_reports : list Report :=
  [ mkReport 0 "Pothole on Main St" (Some "Deep hole near the bakery") "road" "high"
      sample_location [] "resolved" (Some "u3") None None [] 10;
    mkReport 1 "Burst pipe" None "water" "medium"
      sample_location [] "resolved" None None None [] 11;
    mkReport 2 "Cracked road surface" None "road" "low"
      sample_location [] "registered" (Some "u3") None None [] 12 ].

(** The report page with two spaces typed in the comment box. *)
Definition sample_page : ReportDetail.State :=
  {| ReportDetail.report := Some sample_resolved_report; ReportDetail.comments := [];
     ReportDetail.newComment := "  "; ReportDetail.newStatus := "resolved";
     ReportDetail.statusComment := ""; ReportDetail.loading := false |}.

(** The admin dashboard after its data arrived. *)
Definition sample_dashboard : AdminDashboard.State :=
  {| AdminDashboard.reports := sample_reports; AdminDashboard.analytics := None;
     AdminDashboard.users := [sample_admin; sample_technician; sample_user];
     AdminDashboard.loading := false; AdminDashboard.statusFilter := "";
     AdminDashboard.categoryFilter := "all"; AdminDashboard.searchTerm := "" |}.

Definition sample_number_to_string (q : QArith_base.Q) : string := "1e+21".

Definition sample_assigned_dashboard : AdminDashboard.State :=
  {| AdminDashboard.reports :=
       [set_assigned_to sample_resolved_report (Some "u2") (Some "Ravi")];
     AdminDashboard.analytics := None;
     AdminDashboard.users := [sample_admin; sample_technician; sample_user];
     AdminDashboard.loading := false; AdminDashboard.statusFilter := "";
     AdminDashboard.categoryFilter := ""; AdminDashboard.searchTerm := "" |}.

(** ** Tactics *)

(** Splits membership in a concrete list of effects into its cases. *)
Ltac effect_cases :=
  unfold AdminDashboard.fetchData_requests; simpl;
  rewrite ?elem_of_app, ?elem_of_cons, ?elem_of_nil;
  intros H; repeat (destruct H as [H|H]); try discriminate H; try done.

(** Splits membership in a concrete list of effects of the report page. *)
Ltac page_effect_cases :=
  simpl; rewrite ?elem_of_app, ?elem_of_cons, ?elem_of_nil;
  intros H; repeat (destruct H as [H|H]); try discriminate H; try done.

(** * Properties *)

(** ** Strings *)

Section StringFacts.

Lemma string_app_cons (a : ascii) (s t : string) : String a s +:+ t = String a (s +:+ t).
Proof. reflexivity. Qed.

Lemma string_app_nil_r (s : string) : s +:+ "" = s.
Proof. induction s as [|a s IH]; [done|]. by rewrite string_app_cons, IH. Qed.

Lemma string_app_assoc (s t u : string) : (s +:+ t) +:+ u = s +:+ t +:+ u.
Proof. induction s as [|a s IH]; [done|]. by rewrite !string_app_cons, IH. Qed.

Lemma string_length_app (s t : string) :
  String.length (s +:+ t) = String.length s + String.length t.
Proof. induction s as [|a s IH]; [done|]. rewrite string_app_cons; simpl. by rewrite IH. Qed.

Lemma startsWith_spec (s t : string) :
  JS.startsWith s t = true ↔ ∃ post, s = t +:+ post.
Proof.
  revert s. induction t as [|b t IH]; intros s; simpl.
  - split; [|done]. intros _. by exists s.
  - destruct s as [|a s].
    + split; [done|]. intros [post Hp]. by rewrite string_app_cons in Hp.
    + case_decide as Hab.
      * subst. rewrite IH. split; intros [post Hp]; exists post.
        -- by rewrite string_app_cons, <- Hp.
        -- rewrite string_app_cons in Hp. by injection Hp.
      * split; [done|]. intros [post Hp]. rewrite string_app_cons in Hp. by injection Hp.
Qed.

(** [includes] finds exactly the substrings. *)
Lemma includes_spec (s t : string) :
  JS.includes s t = true ↔ ∃ pre post, s = pre +:+ t +:+ post.
Proof.
  induction s as [|a s IH]; simpl.
  - rewrite orb_false_r, startsWith_spec. split.
    + intros [post Hp]. by exists "", post.
    + intros (pre & post & Hp). destruct pre; [by exists post|done].
  - rewrite orb_true_iff, IH, startsWith_spec. split.
    + intros [[post Hp]|(pre & post & Hp)].
      * by exists "", post.
      * exists (String a pre), post. by rewrite string_app_cons, <- Hp.
    + intros (pre & post & Hp). destruct pre as [|a' pre].
      * left. by exists post.
      * right. rewrite string_app_cons in Hp. injection Hp as _ Hp. by exists pre, post.
Qed.

Lemma includes_empty (s : string) : JS.includes s "" = true.
Proof. apply includes_spec. by exists "", s. Qed.

Lemma contains_ci_spec (hay needle : string) :
  Manager.contains_ci hay needle = true ↔ occurs_lowercased needle hay.
Proof. unfold Manager.contains_ci, occurs_lowercased. apply includes_spec. Qed.

Lemma trimEnd_empty (s : string) : JS.trimEnd s = "" ↔ blank s = true.
Proof.
  induction s as [|c s IH]; simpl; [done|].
  destruct (JS.trimEnd s) as [|d r] eqn:E.
  - destruct (JS.is_white c); simpl; [exact IH|]. by split.
  - rewrite andb_true_iff. split; [done|]. intros [_ H]. by apply IH in H.
Qed.

Lemma blank_trimStart (s : string) : blank (JS.trimStart s) = blank s.
Proof.
  induction s as [|c s IH]; simpl; [done|].
  destruct (JS.is_white c) eqn:E; simpl; [done|]. by rewrite E.
Qed.

Lemma trim_empty (s : string) : JS.trim s = "" ↔ blank s = true.
Proof. unfold JS.trim. by rewrite trimEnd_empty, blank_trimStart. Qed.

Lemma truthy_false (s : string) : JS.truthy s = false ↔ s = "".
Proof. by destruct s. Qed.

End StringFacts.

(** ** The Lifecycle Manager *)

Section ManagerFacts.
Import Manager.

Lemma check_capability_ok actor required a :
  check_capability actor required = Ok a ↔ actor = Some a ∧ role a ∈ required.
Proof.
  unfold check_capability. destruct actor as [b|]; [|split; [done|by intros [? _]]].
  case_bool_decide as Hb; split.
  - by intros [= ->].
  - by intros [[= ->] _].
  - done.
  - by intros [[= ->] ?].
Qed.

Lemma check_capability_forbidden a required :
  role a ∉ required → check_capability (Some a) required = Err Forbidden.
Proof. intros H. unfold check_capability. by rewrite bool_decide_eq_false_2. Qed.

(** What an accepted UpdateStatus does to the store. *)
Lemma UpdateStatus_ok st now rid actor s c st' r' :
  UpdateStatus st now rid actor s c = Ok (st', r') →
  ∃ a r, actor = Some a ∧ role a ∈ staff_roles ∧ reports st !! rid = Some r
         ∧ is_status s = true
         ∧ r' = set_status_timeline r s (timeline r ++ [mkEntry s c (Some (user_id a)) now])
         ∧ st' = with_reports st (<[rid := r']> (reports st)).
Proof.
  unfold UpdateStatus, mbind, result_bind.
  destruct (check_capability actor staff_roles) as [a|] eqn:Hc; [|done].
  apply check_capability_ok in Hc as [-> Hr].
  unfold find_report. destruct (reports st !! rid) as [r|] eqn:Hl; [|done].
  destruct (is_status s) eqn:Hs; simpl; [|done].
  intros [= <- <-]. by exists a, r.
Qed.

Lemma AssignTechnician_ok st rid actor tid st' r' :
  AssignTechnician st rid actor tid = Ok (st', r') →
  ∃ r t, reports st !! rid = Some r
         ∧ r' = set_assigned_to r (Some tid) (Some (user_name t))
         ∧ st' = with_reports st (<[rid := r']> (reports st)).
Proof.
  unfold AssignTechnician, mbind, result_bind.
  destruct (check_capability actor ["admin"]) as [a|]; [|done].
  destruct (identities st !! tid) as [t|]; [|done].
  case_bool_decide; [|done].
  unfold find_report. destruct (reports st !! rid) as [r|] eqn:Hl; [|done].
  intros [= <- <-]. by exists r, t.
Qed.

Lemma CreateReport_ok st now t d c p la lo ad im a st' r' :
  CreateReport st now t d c p la lo ad im a = Ok (st', r') →
  reports st !! report_id r' = None
  ∧ status r' = status_name Registered
  ∧ timeline r' = [mkEntry (status_name Registered) None (user_id <$> a) now]
  ∧ length (images r') ≤ 5
  ∧ st' = with_reports st (<[report_id r' := r']> (reports st)).
Proof.
  unfold CreateReport, mbind, result_bind, require.
  destruct (JS.truthy t); [|done].
  destruct (length im <=? 5) eqn:Hn; [|done].
  destruct la as [la|]; [|done]. destruct lo as [lo|]; [|done].
  intros [= <- <-]; simpl. split_and!; try done.
  - apply not_elem_of_dom, is_fresh.
  - by apply Nat.leb_le.
Qed.

Lemma AddComment_ok st now rid actor text st' c' :
  AddComment st now rid actor text = Ok (st', c') →
  reports st' = reports st ∧ comments st' = comments st ++ [c'].
Proof.
  unfold AddComment, mbind, result_bind, require, find_report.
  destruct actor as [a|]; [|done].
  destruct (reports st !! rid); [|done].
  destruct (JS.truthy text); [|done].
  by intros [= <- <-].
Qed.

Lemma step_consistent st op : consistent st → consistent (fst (step st op)).
Proof.
  intros Hst. destruct op; simpl; unfold outcome.
  - destruct CreateReport as [[st' r']|] eqn:E; [|done].
    apply CreateReport_ok in E as (_ & Hs & Ht & _ & ->).
    intros rid r; simpl. rewrite lookup_insert. case_decide; [|by apply Hst].
    intros [= <-]. eexists. rewrite Ht, Hs. done.
  - destruct AddComment as [[st' c']|] eqn:E; [|done].
    apply AddComment_ok in E as [Hr _]. intros rid0 r; simpl. rewrite Hr. apply Hst.
  - destruct UpdateStatus as [[st' r']|] eqn:E; [|done].
    apply UpdateStatus_ok in E as (a & r & _ & _ & _ & _ & -> & ->).
    intros rid0 r0; simpl. rewrite lookup_insert. case_decide; [|by apply Hst].
    intros [= <-]. eexists; simpl. by rewrite last_snoc.
  - destruct AssignTechnician as [[st' r']|] eqn:E; [|done].
    apply AssignTechnician_ok in E as (r & t & Hl & -> & ->).
    intros rid0 r0; simpl. rewrite lookup_insert. case_decide; [|by apply Hst].
    intros [= <-]. subst. by apply (Hst _ _ Hl).
Qed.

Lemma step_timeline_length st op rid :
  timeline_length (fst (step st op)) rid
  = timeline_length st rid + counts op (snd (step st op)) rid.
Proof.
  unfold timeline_length. destruct op; simpl; unfold outcome.
  - destruct CreateReport as [[st' r']|] eqn:E; simpl; [|lia].
    apply CreateReport_ok in E as (Hf & _ & Ht & _ & ->); simpl.
    rewrite lookup_insert. case_decide; [|lia]. subst. by rewrite Hf, Ht.
  - destruct AddComment as [[st' c']|] eqn:E; simpl; [|lia].
    apply AddComment_ok in E as [-> _]. lia.
  - destruct UpdateStatus as [[st' r']|] eqn:E; simpl; [|lia].
    apply UpdateStatus_ok in E as (a & r & _ & _ & Hl & _ & -> & ->); simpl.
    rewrite lookup_insert. case_decide; [|lia]. subst.
    rewrite Hl; simpl. rewrite length_app; simpl. lia.
  - destruct AssignTechnician as [[st' r']|] eqn:E; simpl; [|lia].
    apply AssignTechnician_ok in E as (r & t & Hl & -> & ->); simpl.
    rewrite lookup_insert. case_decide; [|lia]. subst. rewrite Hl. simpl. lia.
Qed.

Lemma run_consistent ops : ∀ st, consistent st → consistent (run st ops).
Proof.
  induction ops as [|op ops IH]; intros st Hst; [done|].
  apply IH, step_consistent, Hst.
Qed.

Lemma run_timeline_length ops : ∀ st rid,
  timeline_length (run st ops) rid = timeline_length st rid + accepted_updates st ops rid.
Proof.
  induction ops as [|op ops IH]; intros st rid; simpl; [lia|].
  unfold run in *. simpl. rewrite IH, step_timeline_length. lia.
Qed.

End ManagerFacts.

(** C1.  Over any identity provider and any sequence of calls to the
    manager started on the empty store (accepted or rejected, on this
    report or on others), every stored report has a non-empty timeline,
    its status is the status of the last timeline entry, and the timeline
    has one entry more than there were accepted UpdateStatus calls on that
    report. *)
Theorem C1_status_is_last_timeline_entry :
  ∀ (ids : gmap UserId Identity) (ops : list Manager.Op) (rid : ReportId) (r : Report),
    Manager.reports (Manager.run (Manager.empty_store ids) ops) !! rid = Some r →
    (∃ e, last (timeline r) = Some e ∧ status r = entry_status e)
    ∧ timeline r ≠ []
    ∧ length (timeline r) = 1 + Manager.accepted_updates (Manager.empty_store ids) ops rid.
Proof.
  intros ids ops rid r Hr.
  assert (Ht : tracks r).
  { eapply (run_consistent ops (Manager.empty_store ids)); [|exact Hr].
    intros ? ?; simpl. by rewrite lookup_empty. }
  split; [exact Ht|]. split.
  - destruct Ht as (e & He & _). by destruct (timeline r).
  - pose proof (run_timeline_length ops (Manager.empty_store ids) rid) as H.
    unfold timeline_length in H. rewrite Hr in H. simpl in H.
    by rewrite lookup_empty in H.
Qed.

Lemma C1_status_is_last_timeline_entry_witness :
  Manager.reports sample_store !! 0 = Some sample_resolved_report
  ∧ Manager.accepted_updates (Manager.empty_store sample_identities) sample_ops 0 = 2
  ∧ length (timeline sample_resolved_report)
    = 1 + Manager.accepted_updates (Manager.empty_store sample_identities) sample_ops 0.
Proof.
  split; [vm_compute; reflexivity|]. split; [vm_compute; reflexivity|].
  apply (C1_status_is_last_timeline_entry sample_identities sample_ops 0).
  vm_compute; reflexivity.
Defined.

(** ** The report page *)

Section ReportDetailFacts.
Import ReportDetail.

Lemma is_staff_roles (u : Identity) :
  is_staff (Some u) = true ↔ role u = "admin" ∨ role u = "technician".
Proof.
  unfold is_staff. rewrite orb_true_iff, !bool_decide_eq_true. done.
Qed.

Lemma is_staff_elem (u : Identity) :
  is_staff (Some u) = true ↔ role u ∈ Manager.staff_roles.
Proof.
  rewrite is_staff_roles. unfold Manager.staff_roles.
  rewrite !elem_of_cons, elem_of_nil. tauto.
Qed.

Lemma not_staff (u : Identity) :
  role u ≠ "admin" → role u ≠ "technician" → is_staff (Some u) = false.
Proof.
  intros H1 H2. apply not_true_is_false. rewrite is_staff_roles. tauto.
Qed.

(** The guard of [handleStatusUpdate] is the negation of the condition
    under which the staff card is rendered. *)
Lemma lacksPermission_staff (user : option Identity) :
  lacksPermission user = negb (is_staff user).
Proof.
  unfold lacksPermission, is_staff. destruct user as [u|]; [|done].
  by rewrite negb_orb.
Qed.

(** Nothing on the page reaches [handleStatusUpdate] without the staff
    card, and nothing reaches [handleAddComment] with a disabled button. *)
Lemma click_without_card id user token st put refetched :
  is_staff user = false →
  on id user token st (ClickUpdateStatus put refetched) = (st, []).
Proof.
  intros H. unfold on, render, updateStatusBtn. rewrite H.
  destruct (loading st); [done|]. by destruct (report st).
Qed.

Lemma submit_blank id user token st posted refetched :
  blank (newComment st) = true →
  on id user token st (SubmitComment posted refetched) = (st, []).
Proof.
  intros H. apply trim_empty in H. unfold on, render, addCommentBtn.
  destruct (loading st); [done|]. destruct (report st); [|done].
  destruct user; [|done]. rewrite H. done.
Qed.

End ReportDetailFacts.

(** C2.  An actor whose role is neither admin nor technician is refused by
    UpdateStatus with Forbidden, whatever the report, the status and the
    comment, and the store (hence every timeline) stays as it was.  On the
    report page such a user makes [handleStatusUpdate] issue no request:
    it only shows the permission toast, as it does without a user; the
    update button is not rendered for them, so a click reaches nothing;
    and whenever the button is rendered the user is an admin or a
    technician. *)
Theorem C2_update_status_forbidden_without_staff_role :
  ∀ (a : Identity),
    role a ≠ "admin" → role a ≠ "technician" →
    (∀ st now rid s c,
        Manager.UpdateStatus st now rid (Some a) s c = Manager.Err Manager.Forbidden
        ∧ Manager.step st (Manager.OpUpdateStatus now rid (Some a) s c)
          = (st, Some Manager.Forbidden))
    ∧ (∀ id token st put refetched,
        ReportDetail.handleStatusUpdate id (Some a) token st put refetched
        = (st, [ToastError "You do not have permission to update status"])
        ∧ ReportDetail.handleStatusUpdate id None token st put refetched
          = (st, [ToastError "You do not have permission to update status"])
        ∧ ReportDetail.on id (Some a) token st (ReportDetail.ClickUpdateStatus put refetched)
          = (st, []))
    ∧ (∀ st r, ReportDetail.updateStatusBtn (Some a) st r = NotRendered)
    ∧ (∀ user st r d,
        ReportDetail.updateStatusBtn user st r = Rendered d →
        ∃ u, user = Some u ∧ (role u = "admin" ∨ role u = "technician")).
Proof.
  intros a H1 H2. pose proof (not_staff a H1 H2) as Hs.
  split_and!.
  - intros st now rid s c.
    assert (E : Manager.UpdateStatus st now rid (Some a) s c = Manager.Err Manager.Forbidden).
    { unfold Manager.UpdateStatus. rewrite check_capability_forbidden; [done|].
      rewrite <- is_staff_elem. by rewrite Hs. }
    split; [exact E|]. simpl. by rewrite E.
  - intros id token st put refetched. split_and!.
    + unfold ReportDetail.handleStatusUpdate. by rewrite lacksPermission_staff, Hs.
    + done.
    + by apply click_without_card.
  - intros st r. unfold ReportDetail.updateStatusBtn. by rewrite Hs.
  - intros user st r d. unfold ReportDetail.updateStatusBtn.
    destruct (is_staff user) eqn:E; [|done]. intros _.
    destruct user as [u|]; [|done]. exists u. split; [done|]. by apply is_staff_roles.
Qed.

Lemma C2_update_status_forbidden_without_staff_role_witness :
  Manager.step sample_store (Manager.OpUpdateStatus 14 0 (Some sample_user) "closed" None)
  = (sample_store, Some Manager.Forbidden)
  ∧ ReportDetail.updateStatusBtn (Some sample_user) sample_page sample_resolved_report
    = NotRendered
  ∧ ∃ u, Some sample_admin = Some u ∧ (role u = "admin" ∨ role u = "technician").
Proof.
  assert (H1 : role sample_user ≠ "admin") by done.
  assert (H2 : role sample_user ≠ "technician") by done.
  destruct (C2_update_status_forbidden_without_staff_role sample_user H1 H2)
    as (Hm & _ & Hb & Hr).
  split; [apply Hm|]. split; [apply Hb|].
  apply (Hr (Some sample_admin) sample_page sample_resolved_report true). reflexivity.
Defined.

(** C4.  AddComment without an actor fails with Unauthorized and the store
    (hence the list of comments) stays as it was; with an empty text it
    fails whoever the actor is.  On the report page [handleAddComment]
    issues no request while [user] is null: it only shows the login toast,
    and the form that calls it is not rendered.  The add-comment button is
    enabled exactly when there is a user and the text is not blank (empty
    or white space only); with a blank text, submitting reaches nothing. *)
Theorem C4_add_comment_requires_identity_and_text :
  (∀ st now rid text,
      Manager.AddComment st now rid None text = Manager.Err Manager.Unauthorized
      ∧ Manager.step st (Manager.OpAddComment now rid None text)
        = (st, Some Manager.Unauthorized))
  ∧ (∀ st now rid actor, ∃ e, Manager.AddComment st now rid actor "" = Manager.Err e)
  ∧ (∀ id token st posted refetched,
      ReportDetail.handleAddComment id None token st posted refetched
      = (st, [PreventDefault; ToastError "Please login to add comments"])
      ∧ ReportDetail.on id None token st (ReportDetail.SubmitComment posted refetched)
        = (st, []))
  ∧ (∀ user st,
      enabled (ReportDetail.addCommentBtn user st) = true
      ↔ is_Some user ∧ blank (ReportDetail.newComment st) = false)
  ∧ (∀ id user token st posted refetched,
      blank (ReportDetail.newComment st) = true →
      ReportDetail.on id user token st (ReportDetail.SubmitComment posted refetched)
      = (st, [])).
Proof.
  split_and!.
  - done.
  - intros st now rid actor. unfold Manager.AddComment, Manager.find_report.
    destruct actor; [|by eexists]. destruct (Manager.reports st !! rid); by eexists.
  - intros id token st posted refetched. split; [done|].
    unfold ReportDetail.on, ReportDetail.render.
    destruct (ReportDetail.loading st); [done|]. by destruct (ReportDetail.report st).
  - intros user st. unfold ReportDetail.addCommentBtn.
    destruct user as [u|]; simpl.
    + destruct (blank (ReportDetail.newComment st)) eqn:E.
      * apply trim_empty in E. rewrite E. simpl. split; [done|]. by intros [_ ?].
      * destruct (JS.trim (ReportDetail.newComment st)) eqn:Et.
        -- apply trim_empty in Et. congruence.
        -- simpl. split; [|done]. intros _. split; [by eexists|done].
    + split; [done|]. by intros [[? ?] _].
  - intros id user token st posted refetched H. by apply submit_blank.
Qed.

Lemma C4_add_comment_requires_identity_and_text_witness :
  ReportDetail.on 0 (Some sample_user) None sample_page
    (ReportDetail.SubmitComment (Fulfilled tt) Rejected)
  = (sample_page, []).
Proof.
  apply (proj2 (proj2 (proj2 (proj2 C4_add_comment_requires_identity_and_text)))
           0 (Some sample_user) None sample_page (Fulfilled tt) Rejected).
  reflexivity.
Defined.

(** C5.  For a staff user the update-status button is disabled exactly
    when the selected status is the report's current status and the status
    comment is empty, and a click in that state reaches nothing, whoever
    the user.  The manager has no such guard: called by an admin or a
    technician with the current (valid) status and an empty or absent
    comment, UpdateStatus succeeds, keeps the status and appends one more
    entry to the timeline. *)
Theorem C5_redundant_update_only_rejected_by_the_page :
  (∀ user st r,
      is_staff user = true →
      (ReportDetail.updateStatusBtn user st r = Rendered true
       ↔ ReportDetail.newStatus st = status r ∧ ReportDetail.statusComment st = ""))
  ∧ (∀ id user token st r put refetched,
      ReportDetail.report st = Some r →
      ReportDetail.newStatus st = status r →
      ReportDetail.statusComment st = "" →
      ReportDetail.on id user token st (ReportDetail.ClickUpdateStatus put refetched)
      = (st, []))
  ∧ (∀ st now rid a r c,
      role a = "admin" ∨ role a = "technician" →
      Manager.reports st !! rid = Some r →
      Manager.is_status (status r) = true →
      c = None ∨ c = Some "" →
      ∃ st' r',
        Manager.UpdateStatus st now rid (Some a) (status r) c = Manager.Ok (st', r')
        ∧ Manager.reports st' !! rid = Some r'
        ∧ status r' = status r
        ∧ timeline r' = timeline r ++ [mkEntry (status r) c (Some (user_id a)) now]).
Proof.
  split_and!.
  - intros user st r Hs. unfold ReportDetail.updateStatusBtn. rewrite Hs.
    split.
    + intros [= H]. apply andb_true_iff in H as [H1 H2].
      apply bool_decide_eq_true in H1. apply negb_true_iff, truthy_false in H2. done.
    + intros [-> ->]. by rewrite bool_decide_eq_true_2.
  - intros id user token st r put refetched Hr Hn Hc.
    unfold ReportDetail.on, ReportDetail.render, ReportDetail.updateStatusBtn.
    destruct (ReportDetail.loading st); [done|]. rewrite Hr.
    destruct (is_staff user); [|done].
    rewrite Hn, Hc, bool_decide_eq_true_2; done.
  - intros st now rid a r c Ha Hr Hs _.
    eexists _, _. split_and!.
    + unfold Manager.UpdateStatus, Manager.check_capability.
      rewrite bool_decide_eq_true_2 by (by apply is_staff_elem, is_staff_roles).
      unfold Manager.find_report. simpl. rewrite Hr. simpl. rewrite Hs. reflexivity.
    + simpl. by rewrite lookup_insert_eq.
    + done.
    + done.
Qed.

Lemma C5_redundant_update_only_rejected_by_the_page_witness :
  ReportDetail.updateStatusBtn (Some sample_technician) sample_page sample_resolved_report
  = Rendered true
  ∧ ReportDetail.on 0 (Some sample_technician) None sample_page
      (ReportDetail.ClickUpdateStatus (Fulfilled tt) Rejected)
    = (sample_page, [])
  ∧ ∃ st' r',
      Manager.UpdateStatus sample_store 14 0 (Some sample_technician) "resolved" (Some "")
      = Manager.Ok (st', r')
      ∧ status r' = "resolved" ∧ length (timeline r') = 4.
Proof.
  destruct C5_redundant_update_only_rejected_by_the_page as (Hb & Hc & Hm).
  split; [|split].
  - apply (Hb (Some sample_technician) sample_page sample_resolved_report eq_refl).
    split; reflexivity.
  - apply (Hc 0 (Some sample_technician) None sample_page sample_resolved_report);
      reflexivity.
  - destruct (Hm sample_store 14 0 sample_technician sample_resolved_report (Some ""))
      as (st' & r' & H1 & _ & H3 & H4).
    + right; reflexivity.
    + vm_compute; reflexivity.
    + vm_compute; reflexivity.
    + right; reflexivity.
    + exists st', r'. split; [exact H1|]. split; [exact H3|]. rewrite H4. reflexivity.
Defined.

(** ** The admin dashboard *)

Section AdminDashboardFacts.
Import AdminDashboard.
Variable user : option Identity.
Variable token : option string.

Lemma technicians_spec (users_ : list Identity) (u : Identity) :
  u ∈ technicians users_ ↔ u ∈ users_ ∧ role u = "technician".
Proof.
  unfold technicians. rewrite !list_elem_of_In, filter_In, bool_decide_eq_true. done.
Qed.

Lemma assignItems_spec (st : State) (report : Report) (u : Identity) :
  u ∈ assignItems st report → u ∈ users st ∧ role u = "technician".
Proof.
  unfold assignItems. destruct (assigned_to_name report) as [n|].
  - destruct (JS.truthy n); [by intros ?%elem_of_nil|apply technicians_spec].
  - apply technicians_spec.
Qed.

Lemma offers_spec (st : State) (rid : ReportId) (value : UserId) :
  offers (render st) rid value = true →
  loading st = false
  ∧ ∃ u, user_id u = value ∧ u ∈ users st ∧ role u = "technician".
Proof.
  unfold render. destruct (loading st); [done|]. simpl.
  rewrite existsb_exists. intros ([r items] & Hin & H). split; [done|].
  apply andb_true_iff in H as [_ H]. apply bool_decide_eq_true in H. simpl in H.
  apply list_elem_of_In, list_elem_of_fmap in Hin as (r' & [= -> ->] & _).
  apply list_elem_of_fmap in H as (u & -> & Hu).
  exists u. split; [done|]. by apply assignItems_spec in Hu.
Qed.

(** While the data has not been fetched, a non-admin user changes nothing
    on the page and causes no request. *)
Lemma on_denied (st : State) (ev : Event) :
  not_admin user = true → loading st = true →
  fst (on user token st ev) = st
  ∧ ∀ e, e ∈ snd (on user token st ev) →
         e = ToastError "Access denied" ∨ e = Navigate "/dashboard".
Proof.
  intros Hn Hl. destruct ev; simpl.
  - unfold accessEffect. rewrite Hn. simpl. split; [done|].
    intros e. rewrite !elem_of_cons, elem_of_nil. tauto.
  - rewrite Hl. split; [done|]. by intros e ?%elem_of_nil.
  - rewrite Hl. split; [done|]. by intros e ?%elem_of_nil.
  - rewrite Hl. split; [done|]. by intros e ?%elem_of_nil.
  - unfold render. rewrite Hl. simpl. split; [done|]. by intros e ?%elem_of_nil.
Qed.

Lemma play_denied (evs : list Event) (st : State) :
  not_admin user = true → loading st = true →
  fst (play user token st evs) = st
  ∧ ∀ e, e ∈ snd (play user token st evs) →
         e = ToastError "Access denied" ∨ e = Navigate "/dashboard".
Proof.
  intros Hn Hl. induction evs as [|ev evs IH]; simpl.
  - split; [done|]. by intros e ?%elem_of_nil.
  - destruct (on_denied st ev Hn Hl) as [H1 H2].
    destruct (on user token st ev) as [st1 fx1]. simpl in *. subst st1.
    destruct (play user token st evs) as [st2 fx2]. simpl in *.
    destruct IH as [-> IH]. split; [done|].
    intros e [?|?]%elem_of_app; auto.
Qed.

End AdminDashboardFacts.

(** C6.  AssignTechnician by an actor who is not an admin fails with
    Forbidden; by an admin, on a target that resolves to an identity whose
    role is not technician, it fails with InvalidArgument and the store
    (hence every [assigned_to]) stays as it was.  On the admin dashboard
    the items of an assign select are users with role technician, and
    every assign request that an event causes carries the id of such a
    user.  For a user who is not an admin the effect on [user] shows
    "Access denied" and navigates to /dashboard, the page never leaves its
    initial loading state, and no event causes a request. *)
Theorem C6_assignment_guards :
  (∀ st rid a tid,
      role a ≠ "admin" →
      Manager.AssignTechnician st rid (Some a) tid = Manager.Err Manager.Forbidden)
  ∧ (∀ st rid a tid t,
      role a = "admin" →
      Manager.identities st !! tid = Some t →
      role t ≠ "technician" →
      Manager.AssignTechnician st rid (Some a) tid = Manager.Err Manager.InvalidArgument
      ∧ Manager.step st (Manager.OpAssignTechnician rid (Some a) tid)
        = (st, Some Manager.InvalidArgument))
  ∧ (∀ st report u,
      u ∈ AdminDashboard.assignItems st report →
      u ∈ AdminDashboard.users st ∧ role u = "technician")
  ∧ (∀ user token st ev m rid tid auth,
      Request m (AssignUrl rid) (AssignBody tid) auth ∈ snd (AdminDashboard.on user token st ev) →
      ∃ u, user_id u = tid ∧ u ∈ AdminDashboard.users st ∧ role u = "technician")
  ∧ (∀ user token,
      role <$> user ≠ Some "admin" →
      (∀ st resp,
          AdminDashboard.accessEffect user token st resp
          = (st, [ToastError "Access denied"; Navigate "/dashboard"]))
      ∧ (∀ evs,
          fst (AdminDashboard.play user token AdminDashboard.initial evs)
          = AdminDashboard.initial
          ∧ AdminDashboard.render AdminDashboard.initial = AdminDashboard.Spinner
          ∧ ∀ e, e ∈ snd (AdminDashboard.play user token AdminDashboard.initial evs) →
                 is_request e = false)).
Proof.
  split_and!.
  - intros st rid a tid Ha. unfold Manager.AssignTechnician.
    rewrite check_capability_forbidden; [done|].
    rewrite elem_of_cons, elem_of_nil. tauto.
  - intros st rid a tid t Ha Ht Hr.
    assert (E : Manager.AssignTechnician st rid (Some a) tid
                = Manager.Err Manager.InvalidArgument).
    { unfold Manager.AssignTechnician, Manager.check_capability.
      rewrite bool_decide_eq_true_2 by (rewrite Ha; apply list_elem_of_here).
      simpl. rewrite Ht. by rewrite bool_decide_eq_false_2. }
    split; [exact E|]. simpl. by rewrite E.
  - intros st report u. apply assignItems_spec.
  - intros user token st ev m rid tid auth. destruct ev; simpl.
    + unfold AdminDashboard.accessEffect, AdminDashboard.fetchData.
      destruct (AdminDashboard.not_admin user); [by effect_cases|].
      destruct resp as [[[rs an] us]|]; by effect_cases.
    + destruct (AdminDashboard.loading st); by intros ?%elem_of_nil.
    + destruct (AdminDashboard.loading st); by intros ?%elem_of_nil.
    + destruct (AdminDashboard.loading st); by intros ?%elem_of_nil.
    + destruct (AdminDashboard.offers _ rid0 value) eqn:Ho; [|by intros ?%elem_of_nil].
      apply offers_spec in Ho as [_ Hu]. unfold AdminDashboard.handleAssign.
      destruct put as [[]|]; [destruct refetched as [[[rs an] us]|]|];
        effect_cases; by simplify_eq.
  - intros user token Hu.
    assert (Hn : AdminDashboard.not_admin user = true).
    { unfold AdminDashboard.not_admin. by rewrite bool_decide_eq_false_2. }
    split.
    + intros st resp. unfold AdminDashboard.accessEffect. by rewrite Hn.
    + intros evs.
      destruct (play_denied user token evs AdminDashboard.initial Hn eq_refl) as [H1 H2].
      split_and!; [done|done|].
      intros e He. by destruct (H2 e He) as [-> | ->].
Qed.

Lemma C6_assignment_guards_witness :
  Manager.AssignTechnician sample_store 0 (Some sample_technician) "u2"
  = Manager.Err Manager.Forbidden
  ∧ Manager.step sample_store (Manager.OpAssignTechnician 0 (Some sample_admin) "u3")
    = (sample_store, Some Manager.InvalidArgument)
  ∧ role sample_technician = "technician"
  ∧ (∃ u, user_id u = "u2" ∧ u ∈ AdminDashboard.users sample_dashboard
          ∧ role u = "technician")
  ∧ fst (AdminDashboard.play (Some sample_user) None AdminDashboard.initial
           [AdminDashboard.RunEffect Rejected;
            AdminDashboard.ChooseTechnician 0 "u2" (Fulfilled tt) Rejected])
    = AdminDashboard.initial.
Proof.
  destruct C6_assignment_guards as (Hf & Hi & Hitems & Hreq & Hgate).
  split_and!.
  - apply Hf. done.
  - apply (Hi sample_store 0 sample_admin "u3" sample_user).
    + reflexivity.
    + vm_compute; reflexivity.
    + done.
  - apply (Hitems sample_dashboard sample_anonymous_report sample_technician).
    vm_compute. apply list_elem_of_here.
  - apply (Hreq (Some sample_admin) None sample_dashboard
             (AdminDashboard.ChooseTechnician 2 "u2" Rejected Rejected)
             PUT 2 "u2" (Some None)).
    vm_compute. apply list_elem_of_here.
  - apply (Hgate (Some sample_user) None). done.
Defined.

(** ** The report form *)

Section CreateReportFacts.
Import CreateReport.

Lemma filter_index_length {A : Type} (p : nat → bool) (l : list A) :
  ∀ i, length (filter_index p i l) ≤ length l.
Proof.
  induction l as [|x l IH]; intros i; simpl; [lia|].
  specialize (IH (S i)). destruct (p i); simpl; lia.
Qed.

Lemma filter_index_above {A : Type} (l : list A) :
  ∀ k i, i < k → filter_index (fun j => negb (j =? i)) k l = l.
Proof.
  induction l as [|x l IH]; intros k i Hk; cbn [filter_index]; [done|].
  rewrite (proj2 (Nat.eqb_neq k i)) by lia. cbn [negb]. f_equal. apply IH. lia.
Qed.

(** [removeImage] drops the image at [index] and nothing else. *)
Lemma filter_index_delete {A : Type} (l : list A) :
  ∀ i index, filter_index (fun j => negb (j =? i + index)) i l = delete index l.
Proof.
  induction l as [|x l IH]; intros i index; cbn [filter_index]; [done|].
  destruct index as [|index].
  - rewrite Nat.add_0_r, Nat.eqb_refl. cbn [negb]. apply filter_index_above. lia.
  - rewrite (proj2 (Nat.eqb_neq i (i + S index))) by lia. cbn [negb].
    replace (i + S index) with (S i + index) by lia. rewrite IH. done.
Qed.

Lemma image_op_bound (st : State) (op : ImageOp) :
  length (images_input st) ≤ 5 → length (images_input (image_op st op)) ≤ 5.
Proof.
  intros H. destruct op as [files|index]; simpl.
  - unfold handleImageSelect.
    destruct (5 <? length (images_input st) + length files) eqn:E; simpl; [done|].
    apply Nat.ltb_ge in E. by rewrite length_app.
  - pose proof (filter_index_length (λ i, negb (i =? index)) (images_input st) 0). lia.
Qed.

End CreateReportFacts.

(** C7.  [handleImageSelect] refuses a selection that would bring the
    number of images above 5: the state is unchanged and the toast
    "Maximum 5 images allowed" is shown; otherwise the selected files are
    appended in order.  Hence the images of the form, which start empty
    and change only by [handleImageSelect] and [removeImage], always number
    between 0 and 5, and they are the images of the form that
    [handleSubmit] posts. *)
Theorem C7_at_most_five_images :
  (∀ st files,
      5 < length (CreateReport.images_input st) + length files →
      CreateReport.handleImageSelect st files = (st, [ToastError "Maximum 5 images allowed"]))
  ∧ (∀ st files,
      length (CreateReport.images_input st) + length files ≤ 5 →
      CreateReport.images_input (fst (CreateReport.handleImageSelect st files))
      = CreateReport.images_input st ++ files
      ∧ snd (CreateReport.handleImageSelect st files) = [])
  ∧ (∀ st index,
      CreateReport.images_input (CreateReport.removeImage st index)
      = delete index (CreateReport.images_input st))
  ∧ (∀ ops,
      length (CreateReport.images_input
                (fold_left CreateReport.image_op ops CreateReport.initial)) ≤ 5)
  ∧ (∀ token st resp detail m url t d c p la lo ad im auth,
      Request m url (ReportForm t d c p la lo ad im) auth
      ∈ snd (CreateReport.handleSubmit token st resp detail) →
      im = CreateReport.images_input st).
Proof.
  split_and!; cycle 4.
  { intros token st resp detail m url t d c p la lo ad im auth.
    unfold CreateReport.handleSubmit.
    destruct (CreateReport.position st) as [[la' lo']|]; [|by effect_cases].
    destruct resp; effect_cases; by simplify_eq. }
  - intros st files H. unfold CreateReport.handleImageSelect.
    by rewrite (proj2 (Nat.ltb_lt _ _) H).
  - intros st files H. unfold CreateReport.handleImageSelect.
    by rewrite (proj2 (Nat.ltb_ge _ _) H).
  - intros st index. simpl. apply (filter_index_delete _ 0 index).
  - intros ops.
    assert (∀ st, length (CreateReport.images_input st) ≤ 5 →
                  length (CreateReport.images_input
                            (fold_left CreateReport.image_op ops st)) ≤ 5) as H.
    { induction ops as [|op ops IH]; intros st Hst; simpl; [done|].
      by apply IH, image_op_bound. }
    apply H. simpl. lia.
Qed.

Lemma C7_at_most_five_images_witness :
  CreateReport.handleImageSelect
    (CreateReport.setImages CreateReport.initial ["a.png"; "b.png"; "c.png"])
    ["d.png"; "e.png"; "f.png"]
  = (CreateReport.setImages CreateReport.initial ["a.png"; "b.png"; "c.png"],
     [ToastError "Maximum 5 images allowed"])
  ∧ CreateReport.images_input
      (fst (CreateReport.handleImageSelect
              (CreateReport.setImages CreateReport.initial ["a.png"; "b.png"; "c.png"])
              ["d.png"; "e.png"]))
    = ["a.png"; "b.png"; "c.png"; "d.png"; "e.png"]
  ∧ ["a.png"]
    = CreateReport.images_input
        (CreateReport.setPosition (CreateReport.setImages CreateReport.initial ["a.png"])
           CreateReport.newYork).
Proof.
  destruct C7_at_most_five_images as (Hr & Ha & _ & _ & Hs).
  split_and!.
  - apply Hr. simpl. lia.
  - apply (Ha (CreateReport.setImages CreateReport.initial ["a.png"; "b.png"; "c.png"])
             ["d.png"; "e.png"]).
    simpl. lia.
  - apply (Hs None
             (CreateReport.setPosition (CreateReport.setImages CreateReport.initial ["a.png"])
                CreateReport.newYork)
             (Fulfilled 7) None
             POST (ReportsUrl None None) "" "" "other" "medium"
             (fst CreateReport.newYork) (snd CreateReport.newYork) (Some "") ["a.png"] None).
    vm_compute. apply list_elem_of_further, list_elem_of_here.
Defined.

(** ** The list filters *)

Section FilterFacts.

Lemma truthy_status_name (s : Status) : JS.truthy (status_name s) = true.
Proof. by destruct s. Qed.

Lemma truthy_category_name (c : Category) : JS.truthy (category_name c) = true.
Proof. by destruct c. Qed.

(** The search predicate of both pages is the case-insensitive substring
    test on the title or on the description, when there is one. *)
Lemma matchesSearch_truthy (term : string) (r : Report) :
  JS.truthy_opt (Dashboard.matchesSearch term r)
  = Manager.contains_ci (title r) term
    || match description r with
       | Some d => Manager.contains_ci d term
       | None => false
       end.
Proof.
  unfold Dashboard.matchesSearch, JS.or_js, Manager.contains_ci.
  destruct (JS.includes (JS.toLowerCase (title r)) (JS.toLowerCase term)); [done|].
  by destruct (description r).
Qed.

Lemma matchesSearch_empty (r : Report) :
  JS.truthy_opt (Dashboard.matchesSearch "" r) = true.
Proof.
  rewrite matchesSearch_truthy. unfold Manager.contains_ci. simpl.
  by rewrite includes_empty.
Qed.

Lemma filter_all {A : Type} (p : A → bool) (l : list A) :
  (∀ x, p x = true) → List.filter p l = l.
Proof.
  intros H. induction l as [|x l IH]; simpl; [done|]. by rewrite H, IH.
Qed.

Lemma filter_agree {A : Type} (p q : A → bool) (l : list A) :
  (∀ x, p x = q x) → List.filter p l = List.filter q l.
Proof.
  intros H. induction l as [|x l IH]; simpl; [done|]. by rewrite H, IH.
Qed.

Lemma Dashboard_filteredReports_empty (reports : list Report) :
  Dashboard.filteredReports "" reports = reports.
Proof. apply filter_all, matchesSearch_empty. Qed.



(** The item "all" of a select box and its initial value [''] both stand
    for the absent filter. *)
Lemma matchesSelect_all (v : string) :
  AdminDashboard.matchesSelect "all" v = true ∧ AdminDashboard.matchesSelect "" v = true.
Proof. done. Qed.


End FilterFacts.

Section ListFacts.





End ListFacts.


(** C8.  For a logged-in user the "my reports" list consists of exactly
    the reports of the filtered view whose [created_by_id] is the user's
    id, in the order of that view; with an empty search box these are
    exactly the fetched reports with that [created_by_id].  A report
    without [created_by_id] is in nobody's list. *)
Theorem C8_my_reports_are_the_users_own :
  (∀ (u : Identity) (term : string) (reports : list Report) (r : Report),
      r ∈ Dashboard.myReports (Some u) term reports
      ↔ r ∈ Dashboard.filteredReports term reports ∧ created_by_id r = Some (user_id u))
  ∧ (∀ (u : Identity) (reports : list Report) (r : Report),
      r ∈ Dashboard.myReports (Some u) "" reports
      ↔ r ∈ reports ∧ created_by_id r = Some (user_id u))
  ∧ (∀ (user : option Identity) (term : string) (reports : list Report) (r : Report),
      created_by_id r = None →
      r ∉ Dashboard.myReports user term reports).
Proof.
  assert (H : ∀ u term reports r,
             r ∈ Dashboard.myReports (Some u) term reports
             ↔ r ∈ Dashboard.filteredReports term reports
               ∧ created_by_id r = Some (user_id u)).
  { intros u term reports r. unfold Dashboard.myReports.
    by rewrite !list_elem_of_In, filter_In, bool_decide_eq_true. }
  split_and!.
  - exact H.
  - intros u reports r. by rewrite H, Dashboard_filteredReports_empty.
  - intros [u|] term reports r Hr.
    + rewrite H. intros [_ Hu]. congruence.
    + apply not_elem_of_nil.
Qed.

Lemma C8_my_reports_are_the_users_own_witness :
  sample_anonymous_report
  ∉ Dashboard.myReports (Some sample_user) "pothole" [sample_anonymous_report].
Proof.
  apply (proj2 (proj2 C8_my_reports_are_the_users_own)). reflexivity.
Defined.

(** C10.  With an empty search term every report matches: the search
    filter of the dashboard returns the list as it is, and so does the
    filter of the admin dashboard while no status and no category is
    chosen (with a choice, only the two select predicates remain).  A
    report without description is matched through its title alone: the
    search predicate is then [true] or [undefined], never an error, and
    the report is kept exactly when the lower-case form of the term is a
    substring of the lower-case form of the title. *)
Theorem C10_empty_search_matches_everything :
  (∀ (reports : list Report), Dashboard.filteredReports "" reports = reports)
  ∧ (∀ (reports : list Report),
      AdminDashboard.filteredReports "" "" "" reports = reports
      ∧ AdminDashboard.filteredReports "" "all" "all" reports = reports)
  ∧ (∀ (sf cf : string) (reports : list Report),
      AdminDashboard.filteredReports "" sf cf reports
      = List.filter (fun r => AdminDashboard.matchesSelect sf (status r)
                              && AdminDashboard.matchesSelect cf (category r)) reports)
  ∧ (∀ (term : string) (r : Report),
      description r = None →
      (Dashboard.matchesSearch term r = Some true
       ∨ Dashboard.matchesSearch term r = None)
      ∧ AdminDashboard.matchesSearch term r = Dashboard.matchesSearch term r
      ∧ (JS.truthy_opt (Dashboard.matchesSearch term r) = true
         ↔ occurs_lowercased term (title r))
      ∧ ∀ reports, r ∈ reports →
          (r ∈ Dashboard.filteredReports term reports
           ↔ occurs_lowercased term (title r))).
Proof.
  assert (Hsel : ∀ sf cf reports,
             AdminDashboard.filteredReports "" sf cf reports
             = List.filter (fun r => AdminDashboard.matchesSelect sf (status r)
                                     && AdminDashboard.matchesSelect cf (category r)) reports).
  { intros sf cf reports. apply filter_agree. intros r. unfold AdminDashboard.keeps.
    change (AdminDashboard.matchesSearch "" r) with (Dashboard.matchesSearch "" r).
    by rewrite matchesSearch_empty. }
  split_and!.
  - apply Dashboard_filteredReports_empty.
  - intros reports. rewrite !Hsel. split; by apply filter_all.
  - exact Hsel.
  - intros term r Hd.
    assert (Ht : JS.truthy_opt (Dashboard.matchesSearch term r) = true
                 ↔ occurs_lowercased term (title r)).
    { rewrite matchesSearch_truthy, Hd, orb_false_r. apply contains_ci_spec. }
    split_and!.
    + unfold Dashboard.matchesSearch, JS.or_js. rewrite Hd. simpl.
      destruct (JS.includes _ _); auto.
    + done.
    + exact Ht.
    + intros reports Hr. unfold Dashboard.filteredReports.
      rewrite list_elem_of_In, filter_In, <- list_elem_of_In, Ht. tauto.
Qed.

Lemma C10_empty_search_matches_everything_witness :
  sample_anonymous_report ∈ Dashboard.filteredReports "MAIN st" [sample_anonymous_report]
  ↔ occurs_lowercased "MAIN st" (title sample_anonymous_report).
Proof.
  apply (proj2 (proj2 (proj2 C10_empty_search_matches_everything)) "MAIN st"
           sample_anonymous_report eq_refl).
  apply list_elem_of_here.
Defined.

(** ** Numbers in fixed notation *)

Section ToFixedFacts.

Lemma all_digits_app (s t : string) :
  all_digits (s +:+ t) = all_digits s && all_digits t.
Proof.
  induction s as [|c s IH]; [done|]. rewrite string_app_cons; simpl.
  by rewrite IH, andb_assoc.
Qed.

Lemma all_digits_zeros (n : nat) : all_digits (JS.zeros n) = true.
Proof. induction n as [|n IH]; [done|]. simpl. exact IH. Qed.

Lemma length_zeros (n : nat) : String.length (JS.zeros n) = n.
Proof. induction n as [|n IH]; [done|]. simpl. by rewrite IH. Qed.

Lemma all_digits_decimal (n : Z) : all_digits (JS.decimal n) = true.
Proof.
  unfold JS.decimal. generalize (N.to_uint (Z.to_N n)).
  intros d. induction d; simpl; auto.
Qed.

Lemma string_take_drop (s : string) :
  ∀ n, JS.string_take n s +:+ JS.string_drop n s = s.
Proof.
  induction s as [|c s IH]; intros [|n]; try done.
  simpl. by rewrite string_app_cons, IH.
Qed.

Lemma length_string_drop (s : string) :
  ∀ n, String.length (JS.string_drop n s) = String.length s - n.
Proof. induction s as [|c s IH]; intros [|n]; try done. simpl. apply IH. Qed.

Lemma length_string_take (s : string) :
  ∀ n, n ≤ String.length s → String.length (JS.string_take n s) = n.
Proof.
  induction s as [|c s IH]; intros [|n] Hn; simpl in *; try done; try lia.
  rewrite IH; lia.
Qed.

(** Among the integers, [nearest_scaled p q f] is nearest to
    [p / q * 10^f], and the larger of the two nearest in case of a tie. *)
Lemma nearest_scaled_nearest (p : Z) (q : positive) (f : nat) :
  let n := JS.nearest_scaled p q f in
  (2 * Z.pos q * n - Z.pos q ≤ 2 * p * 10 ^ Z.of_nat f < 2 * Z.pos q * n + Z.pos q)%Z.
Proof.
  cbv zeta. unfold JS.nearest_scaled.
  pose proof (Z.div_mod (2 * p * 10 ^ Z.of_nat f + Z.pos q) (2 * Z.pos q) ltac:(lia)) as Hd.
  pose proof (Z.mod_pos_bound (2 * p * 10 ^ Z.of_nat f + Z.pos q) (2 * Z.pos q) ltac:(lia)) as Hm.
  lia.
Qed.

Lemma numeral_value_decimal (n : Z) : numeral_value (JS.decimal n) = Some (Z.to_N n).
Proof.
  unfold numeral_value, JS.decimal. rewrite NilEmpty.usu. simpl.
  by rewrite DecimalN.Unsigned.of_to.
Qed.

Lemma numeral_value_zeros (k : nat) (s : string) :
  numeral_value (JS.zeros k +:+ s) = numeral_value s.
Proof.
  induction k as [|k IH]; [done|]. rewrite <- IH.
  unfold numeral_value. simpl JS.zeros. rewrite string_app_cons. simpl.
  by destruct (NilEmpty.uint_of_string (JS.zeros k +:+ s)).
Qed.

(** The digits printed by [fixed_digits]: at least one before the point,
    exactly [f] after it, and together they are the decimal numeral of the
    integer nearest to [p / q * 10^f]. *)
Lemma fixed_digits_format (p : Z) (q : positive) (f : nat) :
  0 < f →
  ∃ int frac,
    JS.fixed_digits p q f = int +:+ "." +:+ frac
    ∧ int ≠ "" ∧ all_digits int = true
    ∧ all_digits frac = true ∧ String.length frac = f
    ∧ numeral_value (int +:+ frac) = Some (Z.to_N (JS.nearest_scaled p q f)).
Proof.
  intros Hf. unfold JS.fixed_digits. destruct f as [|f']; [lia|].
  set (f := S f') in *.
  set (m0 := JS.decimal (JS.nearest_scaled p q f)).
  set (m := if String.length m0 <=? f then JS.zeros (f + 1 - String.length m0) +:+ m0 else m0).
  assert (Hd : all_digits m = true).
  { pose proof (all_digits_decimal (JS.nearest_scaled p q f)) as H0.
    fold m0 in H0. subst m. destruct (String.length m0 <=? f); [|done].
    by rewrite all_digits_app, all_digits_zeros, H0. }
  assert (Hl : f < String.length m).
  { subst m. destruct (String.length m0 <=? f) eqn:E.
    - apply Nat.leb_le in E. rewrite string_length_app, length_zeros. lia.
    - apply Nat.leb_gt in E. lia. }
  assert (Hv : numeral_value m = Some (Z.to_N (JS.nearest_scaled p q f))).
  { pose proof (numeral_value_decimal (JS.nearest_scaled p q f)) as H0.
    fold m0 in H0. subst m. destruct (String.length m0 <=? f); [|done].
    by rewrite numeral_value_zeros. }
  exists (JS.string_take (String.length m - f) m), (JS.string_drop (String.length m - f) m).
  rewrite string_take_drop.
  rewrite <- (string_take_drop m (String.length m - f)), all_digits_app in Hd.
  apply andb_true_iff in Hd as [Hd1 Hd2].
  split_and!; try done.
  - intros E. apply (f_equal String.length) in E.
    rewrite length_string_take in E by lia. simpl in E. lia.
  - rewrite length_string_drop. lia.
Qed.

Lemma toFixed_format (numberToString : QArith_base.Q → string) (x : JS.Number) (f : nat) :
  0 < f → fixed_range x → fixed_notation f (JS.toFixed numberToString x f).
Proof.
  intros Hf Hx. destruct x as [[p d]| |]; [|done..]. simpl in Hx.
  unfold JS.toFixed. simpl.
  destruct (p <? 0)%Z eqn:Hp.
  - apply Z.ltb_lt in Hp.
    rewrite (proj2 (Z.leb_gt _ _)) by lia.
    destruct (fixed_digits_format (- p) d f Hf) as (int & frac & -> & Hi & Hd1 & Hd2 & Hl & _).
    exists "-", int, frac. split_and!; auto.
  - apply Z.ltb_ge in Hp.
    rewrite (proj2 (Z.leb_gt _ _)) by lia.
    destruct (fixed_digits_format p d f Hf) as (int & frac & -> & Hi & Hd1 & Hd2 & Hl & _).
    exists "", int, frac. split_and!; auto.
Qed.

(** What [toFixed] prints for [p / d] in the fixed range: a minus sign
    exactly when the number is negative, then the digits of the integer
    nearest to [|p / d| * 10^f] with the point before the last [f]. *)
Lemma toFixed_value (numberToString : QArith_base.Q → string) (p : Z) (d : positive) (f : nat) :
  0 < f → fixed_range (JS.Finite (QArith_base.Qmake p d)) →
  ∃ int frac,
    JS.toFixed numberToString (JS.Finite (QArith_base.Qmake p d)) f
    = (if (p <? 0)%Z then "-" else "") +:+ int +:+ "." +:+ frac
    ∧ String.length frac = f
    ∧ numeral_value (int +:+ frac) = Some (Z.to_N (JS.nearest_scaled (Z.abs p) d f)).
Proof.
  intros Hf Hx. simpl in Hx. unfold JS.toFixed. simpl.
  destruct (p <? 0)%Z eqn:Hp.
  - apply Z.ltb_lt in Hp.
    rewrite (proj2 (Z.leb_gt _ _)) by lia.
    destruct (fixed_digits_format (- p) d f Hf) as (int & frac & -> & _ & _ & _ & Hl & Hv).
    exists int, frac. rewrite Z.abs_neq by lia. done.
  - apply Z.ltb_ge in Hp.
    rewrite (proj2 (Z.leb_gt _ _)) by lia.
    destruct (fixed_digits_format p d f Hf) as (int & frac & -> & _ & _ & _ & Hl & Hv).
    exists int, frac. rewrite Z.abs_eq by lia. done.
Qed.

End ToFixedFacts.

(** C9.  When the request to the geocoding service is rejected, or is
    answered without data so that reading the display name throws,
    [reverseGeocode] catches the error: it logs it, and hands to
    [setAddress] the latitude and the longitude in [toFixed(6)] form,
    separated by a comma and a space.  The click handler of the map and
    the mount effect complete as usual: afterwards the address of the form
    is that string, the position is the clicked or located one, the images
    are untouched, and submitting the form then posts that string as the
    address.  For every finite coordinate below [10^21] in
    magnitude, each part is in fixed notation with exactly six decimal
    places. *)
Theorem C9_reverse_geocode_falls_back_to_coordinates :
  ∀ (numberToString : QArith_base.Q → string) (lat_ lng_ : JS.Number)
    (resp : Response (option (option string))),
    resp = Rejected ∨ resp = Fulfilled None →
    let fallback :=
      JS.toFixed numberToString lat_ 6 +:+ ", " +:+ JS.toFixed numberToString lng_ 6 in
    CreateReport.reverseGeocode numberToString lat_ lng_ resp
    = (Some fallback,
       [Request GET (NominatimReverse lat_ lng_) NoBody None;
        ConsoleError "Reverse geocoding failed:"])
    ∧ (∀ st,
        fst (CreateReport.click numberToString st lat_ lng_ resp)
        = CreateReport.setAddress (CreateReport.setPosition st (lat_, lng_)) (Some fallback)
        ∧ fst (CreateReport.locate numberToString st (CreateReport.Located lat_ lng_ resp))
          = CreateReport.setAddress (CreateReport.setPosition st (lat_, lng_)) (Some fallback))
    ∧ (∀ st,
        let clicked := fst (CreateReport.click numberToString st lat_ lng_ resp) in
        let located :=
          fst (CreateReport.locate numberToString st (CreateReport.Located lat_ lng_ resp)) in
        CreateReport.address_input clicked = Some fallback
        ∧ CreateReport.position clicked = Some (lat_, lng_)
        ∧ CreateReport.images_input clicked = CreateReport.images_input st
        ∧ CreateReport.address_input located = Some fallback
        ∧ CreateReport.position located = Some (lat_, lng_)
        ∧ CreateReport.images_input located = CreateReport.images_input st)
    ∧ (∀ st detail token posted,
        let clicked := fst (CreateReport.click numberToString st lat_ lng_ resp) in
        List.filter is_request (snd (CreateReport.handleSubmit token clicked posted detail))
        = [Request POST (ReportsUrl None None)
             (ReportForm (CreateReport.title_input st) (CreateReport.description_input st)
                (CreateReport.category_input st) (CreateReport.priority_input st)
                lat_ lng_ (Some fallback) (CreateReport.images_input st))
             (form_authorization token)])
    ∧ (fixed_range lat_ → fixed_notation 6 (JS.toFixed numberToString lat_ 6))
    ∧ (fixed_range lng_ → fixed_notation 6 (JS.toFixed numberToString lng_ 6)).
Proof.
  intros nts lat_ lng_ resp Hr fallback.
  assert (E : CreateReport.reverseGeocode nts lat_ lng_ resp
              = (Some fallback,
                 [Request GET (NominatimReverse lat_ lng_) NoBody None;
                  ConsoleError "Reverse geocoding failed:"])).
  { by destruct Hr as [-> | ->]. }
  split_and!.
  - exact E.
  - intros st. unfold CreateReport.click, CreateReport.locate. by rewrite E.
  - intros st. unfold CreateReport.click, CreateReport.locate. by rewrite E.
  - intros st detail token posted. unfold CreateReport.click. rewrite E.
    unfold CreateReport.handleSubmit, form_authorization. simpl.
    destruct token as [t|]; [destruct (JS.truthy t)|]; by destruct posted.
  - apply toFixed_format. lia.
  - apply toFixed_format. lia.
Qed.

Lemma C9_reverse_geocode_falls_back_to_coordinates_witness :
  CreateReport.reverseGeocode sample_number_to_string
    (fst CreateReport.newYork) (snd CreateReport.newYork) Rejected
  = (Some "40.712800, -74.006000",
     [Request GET (NominatimReverse (fst CreateReport.newYork) (snd CreateReport.newYork))
        NoBody None;
      ConsoleError "Reverse geocoding failed:"])
  ∧ CreateReport.address_input
      (fst (CreateReport.click sample_number_to_string CreateReport.initial
              (fst CreateReport.newYork) (snd CreateReport.newYork) Rejected))
    = Some "40.712800, -74.006000"
  ∧ fixed_notation 6 "40.712800"
  ∧ fixed_notation 6 "-74.006000".
Proof.
  destruct (C9_reverse_geocode_falls_back_to_coordinates sample_number_to_string
              (fst CreateReport.newYork) (snd CreateReport.newYork) Rejected
              (or_introl eq_refl))
    as (Hg & _ & Ha & _ & Hlat & Hlng).
  split; [exact Hg|]. split; [apply (Ha CreateReport.initial)|]. split.
  - apply Hlat. simpl. lia.
  - apply Hlng. simpl. lia.
Defined.


(** * Further properties of the pages *)

(** ** The auth provider and the routes *)

Section AuthContextFacts.
Import AuthContext.

Lemma tokenEffect_loading st resp : loading (fst (tokenEffect st resp)) = false.
Proof. unfold tokenEffect, fetchUser. by destruct (has_token st), resp. Qed.

Lemma runEffect_loading st resp : loading (fst (runEffect st resp)) = false.
Proof.
  unfold runEffect. pose proof (tokenEffect_loading st resp) as H1.
  destruct (tokenEffect st resp) as [st1 fx1]. simpl in H1.
  case_decide; [done|].
  pose proof (tokenEffect_loading st1 resp) as H2.
  by destruct (tokenEffect st1 resp).
Qed.

Lemma tokenEffect_in_sync st resp : in_sync st → in_sync (fst (tokenEffect st resp)).
Proof. unfold tokenEffect, fetchUser, in_sync. by destruct (has_token st), resp. Qed.

Lemma runEffect_in_sync st resp : in_sync st → in_sync (fst (runEffect st resp)).
Proof.
  intros H. unfold runEffect. pose proof (tokenEffect_in_sync st resp H) as H1.
  destruct (tokenEffect st resp) as [st1 fx1]. simpl in H1.
  case_decide; [done|].
  pose proof (tokenEffect_in_sync st1 resp H1) as H2.
  by destruct (tokenEffect st1 resp).
Qed.

Lemma afterChange_cases old st me :
  fst (afterChange old st me) = st ∨ fst (afterChange old st me) = fst (runEffect st me).
Proof. unfold afterChange. case_decide; auto. Qed.

Lemma store_token_in_sync st resp : in_sync st → in_sync (fst (store_token st resp)).
Proof. unfold store_token, in_sync. by destruct resp. Qed.

Lemma store_token_loading st resp : loading (fst (store_token st resp)) = loading st.
Proof. by destruct resp. Qed.

(** The state after one event: the call, then possibly the effect. *)
Lemma on_shape st ev :
  ∃ st1 me,
    (fst (on st ev) = st1 ∨ fst (on st ev) = fst (runEffect st1 me))
    ∧ match ev with
      | Login _ _ resp _ | Signup _ _ _ _ _ resp _ => st1 = fst (store_token st resp)
      | Logout => st1 = logout st
      end.
Proof.
  destruct ev as [email password resp me|n email password phone r resp me|]; simpl.
  - unfold login. destruct (store_token st resp) as [st1 d] eqn:E.
    exists st1, me. split; [|done].
    pose proof (afterChange_cases (token st) st1 me) as H.
    by destruct (afterChange (token st) st1 me).
  - unfold signup. destruct (store_token st resp) as [st1 d] eqn:E.
    exists st1, me. split; [|done].
    pose proof (afterChange_cases (token st) st1 me) as H.
    by destruct (afterChange (token st) st1 me).
  - exists (logout st), Rejected. split; [|done]. apply afterChange_cases.
Qed.

Lemma on_in_sync st ev : in_sync st → in_sync (fst (on st ev)).
Proof.
  intros H. destruct (on_shape st ev) as (st1 & me & Hs & H1).
  assert (in_sync st1) as H2.
  { destruct ev; subst st1; [by apply store_token_in_sync..|done]. }
  destruct Hs as [-> | ->]; [done|by apply runEffect_in_sync].
Qed.

Lemma on_loading st ev : loading st = false → loading (fst (on st ev)) = false.
Proof.
  intros H. destruct (on_shape st ev) as (st1 & me & Hs & H1).
  assert (loading st1 = false) as H2.
  { destruct ev; subst st1; [by rewrite store_token_loading..|done]. }
  destruct Hs as [-> | ->]; [done|apply runEffect_loading].
Qed.

Lemma play_invariant (P : State → Prop) (Q : Event → Prop) (evs : list Event) :
  (∀ st ev, Q ev → P st → P (fst (on st ev))) →
  Forall Q evs → ∀ st, P st → P (play st evs).
Proof.
  intros Hstep Hq. induction Hq as [|ev evs Hev _ IH]; intros st Hst; [done|].
  apply IH, Hstep; done.
Qed.

End AuthContextFacts.

(** X1.  Whatever is in [localStorage] at start and whatever happens
    afterwards (logins, signups, logouts, with any answers of the server),
    the token held by the auth provider is the ['token'] item of
    [localStorage]: both are set together and cleared together. *)
Theorem auth_token_is_stored_token :
  ∀ (item : option string) (me : Response Identity) (evs : list AuthContext.Event),
    AuthContext.token (AuthContext.play (AuthContext.mount item me) evs)
    = AuthContext.stored (AuthContext.play (AuthContext.mount item me) evs).
Proof.
  intros item me evs.
  apply (play_invariant in_sync (fun _ => True) evs).
  - intros st ev _. apply on_in_sync.
  - by apply Forall_true.
  - by apply runEffect_in_sync.
Qed.

(** X2.  Once the provider is mounted its [loading] flag is false and stays
    false, so no route shows the loading spinner again: a protected route
    (dashboard, admin) shows its page when a user is held and redirects to
    the login page otherwise, and every other route shows its page.  When
    the stored token is rejected by [/auth/me] at mount, the session is
    cleared: no user, no token, nothing in [localStorage]. *)
Theorem auth_settles_and_routes :
  ∀ (item : option string) (me : Response Identity) (evs : list AuthContext.Event),
    let auth := AuthContext.play (AuthContext.mount item me) evs in
    AuthContext.loading auth = false
    ∧ (∀ r, App.element auth r
            = match r, AuthContext.user auth with
              | (App.DashboardRoute | App.AdminRoute), None => App.NavigateTo App.LoginRoute
              | _, _ => App.PageOf r
              end)
    ∧ (AuthContext.has_token (AuthContext.initial item) = true →
       AuthContext.mount item Rejected
       = {| AuthContext.user := None; AuthContext.loading := false;
            AuthContext.token := None; AuthContext.stored := None |}).
Proof.
  intros item me evs auth.
  assert (Hl : AuthContext.loading auth = false).
  { apply (play_invariant (fun st => AuthContext.loading st = false) (fun _ => True) evs).
    - intros st ev _. apply on_loading.
    - by apply Forall_true.
    - apply runEffect_loading. }
  split_and!.
  - exact Hl.
  - intros r. unfold App.element, App.ProtectedRoute. rewrite Hl.
    destruct r, (AuthContext.user auth); done.
  - intros E. unfold AuthContext.mount, AuthContext.runEffect, AuthContext.tokenEffect.
    rewrite E. simpl. case_decide as Hd; simpl; [|done].
    unfold AuthContext.has_token in E. simpl in *. by rewrite <- Hd in E.
Qed.

Lemma auth_settles_and_routes_witness :
  AuthContext.mount (Some "stale-token") Rejected
  = {| AuthContext.user := None; AuthContext.loading := false;
       AuthContext.token := None; AuthContext.stored := None |}.
Proof.
  apply (proj2 (proj2 (auth_settles_and_routes (Some "stale-token") Rejected []))).
  reflexivity.
Defined.

(** ** The dashboard lists *)

Section DashboardFacts.

Lemma includes_inner (h x t y : string) :
  JS.includes h (x +:+ t +:+ y) = true → JS.includes h t = true.
Proof.
  rewrite !includes_spec. intros (pre & post & ->).
  exists (pre +:+ x), (y +:+ post). by rewrite !string_app_assoc.
Qed.

(** A report matched by a search term is matched by every term whose
    lower-case form is part of the lower-case form of that term. *)
Lemma matchesSearch_inner (old new : string) (r : Report) :
  occurs_lowercased old new →
  JS.truthy_opt (Dashboard.matchesSearch new r) = true →
  JS.truthy_opt (Dashboard.matchesSearch old r) = true.
Proof.
  intros (pre & post & E). rewrite !matchesSearch_truthy. unfold Manager.contains_ci.
  rewrite E, !orb_true_iff. intros [H|H].
  - left. by eapply includes_inner.
  - right. destruct (description r); [by eapply includes_inner|done].
Qed.

Lemma filter_within {A : Type} (p q : A → bool) (l : list A) :
  (∀ x, p x = true → q x = true) →
  List.filter p (List.filter q l) = List.filter p l.
Proof.
  intros H. induction l as [|x l IH]; simpl; [done|].
  destruct (q x) eqn:Eq; simpl; [by rewrite IH|].
  destruct (p x) eqn:Ep; [|done]. apply H in Ep. congruence.
Qed.

Lemma filter_sublist {A : Type} (p : A → bool) (l : list A) :
  List.filter p l `sublist_of` l.
Proof.
  induction l as [|x l IH]; simpl; [done|].
  destruct (p x); [by apply sublist_skip|by apply sublist_cons].
Qed.

End DashboardFacts.

(** X4.  Refining a search never widens it: when the lower-case form of
    the new term contains the lower-case form of the old one, searching
    the fetched reports for the new term gives the same list as searching
    within the old results, on the dashboard and, with any status and
    category choice, on the admin dashboard.  In particular every report
    listed for the new term was listed for the old one.  The terms are
    compared in lower case because the pages do so; nothing is assumed
    about how lower-casing treats a letter. *)
Theorem search_narrows :
  ∀ (old new : string) (reports : list Report),
    occurs_lowercased old new →
    Dashboard.filteredReports new reports
    = Dashboard.filteredReports new (Dashboard.filteredReports old reports)
    ∧ (∀ sf cf,
        AdminDashboard.filteredReports new sf cf reports
        = AdminDashboard.filteredReports new sf cf
            (AdminDashboard.filteredReports old sf cf reports))
    ∧ (∀ r, r ∈ Dashboard.filteredReports new reports →
            r ∈ Dashboard.filteredReports old reports).
Proof.
  intros old new reports Hon. split_and!.
  - unfold Dashboard.filteredReports. symmetry. apply filter_within.
    intros r. by apply matchesSearch_inner.
  - intros sf cf. unfold AdminDashboard.filteredReports. symmetry. apply filter_within.
    intros r. unfold AdminDashboard.keeps.
    change AdminDashboard.matchesSearch with Dashboard.matchesSearch.
    rewrite !andb_true_iff. intros [[H1 H2] H3]. split_and!; try done.
    by eapply matchesSearch_inner.
  - intros r. unfold Dashboard.filteredReports.
    rewrite !list_elem_of_In, !filter_In. intros [H1 H2]. split; [done|].
    by eapply matchesSearch_inner.
Qed.

Lemma search_narrows_witness :
  sample_anonymous_report ∈ Dashboard.filteredReports "Hole" [sample_anonymous_report].
Proof.
  assert (H : occurs_lowercased "Hole" "potHole on") by (by exists "pot", " on").
  apply (proj2 (proj2 (search_narrows "Hole" "potHole on" [sample_anonymous_report] H))).
  vm_compute. apply list_elem_of_here.
Defined.

(** X5.  The lists of the two dashboards never invent, repeat or reorder
    reports: the search result is a sublist of the fetched reports, "my
    reports" is a sublist of the search result, and the admin table is a
    sublist of the fetched reports.  The grid of the dashboard is one of
    the first two, so it too is a sublist of the fetched reports. *)
Theorem lists_are_sublists :
  ∀ (user : option Identity) (st : Dashboard.State) (a : AdminDashboard.State),
    Dashboard.filteredReports (Dashboard.searchTerm st) (Dashboard.reports st)
      `sublist_of` Dashboard.reports st
    ∧ Dashboard.myReports user (Dashboard.searchTerm st) (Dashboard.reports st)
        `sublist_of` Dashboard.filteredReports (Dashboard.searchTerm st) (Dashboard.reports st)
    ∧ Dashboard.shown user st `sublist_of` Dashboard.reports st
    ∧ AdminDashboard.filteredReports (AdminDashboard.searchTerm a)
        (AdminDashboard.statusFilter a) (AdminDashboard.categoryFilter a)
        (AdminDashboard.reports a)
        `sublist_of` AdminDashboard.reports a.
Proof.
  intros user st a.
  assert (H1 : Dashboard.filteredReports (Dashboard.searchTerm st) (Dashboard.reports st)
                 `sublist_of` Dashboard.reports st) by apply filter_sublist.
  assert (H2 : Dashboard.myReports user (Dashboard.searchTerm st) (Dashboard.reports st)
                 `sublist_of` Dashboard.filteredReports (Dashboard.searchTerm st)
                                (Dashboard.reports st)).
  { unfold Dashboard.myReports. destruct user; [apply filter_sublist|apply sublist_nil_l]. }
  split_and!; try done.
  - unfold Dashboard.shown. destruct user; [by etrans|done].
  - apply filter_sublist.
Qed.

(** X6.  The dashboard page is reached only through [ProtectedRoute], so
    whenever it is shown a user is held and its grid is that user's "my
    reports": the branch that lists everybody's reports is never shown,
    and a report without [created_by_id] is never in the grid. *)
Theorem dashboard_only_for_users :
  ∀ (auth : AuthContext.State) (st : Dashboard.State),
    App.element auth App.DashboardRoute = App.PageOf App.DashboardRoute →
    ∃ u, AuthContext.user auth = Some u
         ∧ Dashboard.shown (AuthContext.user auth) st
           = Dashboard.myReports (Some u) (Dashboard.searchTerm st) (Dashboard.reports st)
         ∧ ∀ r, created_by_id r = None → r ∉ Dashboard.shown (AuthContext.user auth) st.
Proof.
  intros auth st. unfold App.element, App.ProtectedRoute.
  destruct (AuthContext.loading auth); [done|].
  destruct (AuthContext.user auth) as [u|]; [|done]. intros _.
  exists u. split_and!; try done.
  intros r Hr. unfold Dashboard.shown, Dashboard.myReports.
  rewrite list_elem_of_In, filter_In, bool_decide_eq_true. intros [_ H]. congruence.
Qed.

Lemma dashboard_only_for_users_witness :
  ∃ u, Some sample_user = Some u
       ∧ Dashboard.shown (Some sample_user) Dashboard.initial
         = Dashboard.myReports (Some u) "" [].
Proof.
  destruct (dashboard_only_for_users
              (AuthContext.mkState (Some sample_user) false (Some "t-1") (Some "t-1"))
              Dashboard.initial eq_refl) as (u & H1 & H2 & _).
  exists u. split; [exact H1|exact H2].
Defined.

(** X7.  On the dashboard, typing in the search box never causes a request
    and never touches the fetched reports; choosing a status or a category
    different from the current one causes exactly one request, a GET of
    the reports whose parameters are the non-empty select values after the
    change (so the item "all" is sent as it is); choosing the current
    value again causes none. *)
Theorem dashboard_requests :
  ∀ (st : Dashboard.State),
    (∀ v, snd (DashboardPage.on st (DashboardPage.SetSearchTerm v)) = []
          ∧ Dashboard.reports (fst (DashboardPage.on st (DashboardPage.SetSearchTerm v)))
            = Dashboard.reports st)
    ∧ (∀ v resp,
        v ≠ Dashboard.statusFilter st →
        List.filter is_request (snd (DashboardPage.on st (DashboardPage.SetStatusFilter v resp)))
        = [Request GET (ReportsUrl (Dashboard.param v)
                          (Dashboard.param (Dashboard.categoryFilter st))) NoBody None])
    ∧ (∀ v resp,
        v ≠ Dashboard.categoryFilter st →
        List.filter is_request (snd (DashboardPage.on st (DashboardPage.SetCategoryFilter v resp)))
        = [Request GET (ReportsUrl (Dashboard.param (Dashboard.statusFilter st))
                          (Dashboard.param v)) NoBody None])
    ∧ (∀ resp,
        DashboardPage.on st (DashboardPage.SetStatusFilter (Dashboard.statusFilter st) resp)
        = (st, [])
        ∧ DashboardPage.on st
            (DashboardPage.SetCategoryFilter (Dashboard.categoryFilter st) resp)
          = (st, [])).
Proof.
  intros st. split_and!.
  - done.
  - intros v resp Hv. simpl. rewrite decide_False by done. by destruct resp.
  - intros v resp Hv. simpl. rewrite decide_False by done. by destruct resp.
  - intros resp. simpl. rewrite !decide_True by done. by destruct st.
Qed.

Lemma dashboard_requests_witness :
  List.filter is_request
    (snd (DashboardPage.on Dashboard.initial (DashboardPage.SetStatusFilter "all" Rejected)))
  = [Request GET (ReportsUrl (Some "all") None) NoBody None].
Proof.
  apply (proj1 (proj2 (dashboard_requests Dashboard.initial)) "all" Rejected).
  discriminate.
Defined.

(** ** The report page, continued *)

(** X8.  For a staff user, a status update that is accepted and followed
    by a successful refetch leaves the page showing the refetched report
    with its status selected and the status comment cleared, so the update
    button is disabled until something is changed.  If the PUT is
    rejected, the page state (selection and typed comment included) is
    unchanged; if only the refetch fails, the comment is still cleared and
    the report shown before is kept. *)
Theorem status_update_outcomes :
  ∀ (id : ReportId) (user : option Identity) (token : option string)
    (st : ReportDetail.State),
    is_staff user = true →
    (∀ r',
        let st' := fst (ReportDetail.handleStatusUpdate id user token st
                          (Fulfilled tt) (Fulfilled r')) in
        ReportDetail.report st' = Some r'
        ∧ ReportDetail.newStatus st' = status r'
        ∧ ReportDetail.statusComment st' = ""
        ∧ ReportDetail.render user st'
          = ReportDetail.Page (ReportDetail.addCommentBtn user st) (Rendered true))
    ∧ (∀ refetched,
        fst (ReportDetail.handleStatusUpdate id user token st Rejected refetched) = st)
    ∧ (let st' := fst (ReportDetail.handleStatusUpdate id user token st
                         (Fulfilled tt) Rejected) in
       ReportDetail.report st' = ReportDetail.report st
       ∧ ReportDetail.newStatus st' = ReportDetail.newStatus st
       ∧ ReportDetail.statusComment st' = ""
       ∧ ReportDetail.loading st' = false).
Proof.
  intros id user token st Hs.
  unfold ReportDetail.handleStatusUpdate. rewrite lacksPermission_staff, Hs. simpl.
  split_and!; try done.
  intros r'. simpl. split_and!; try done.
  unfold ReportDetail.render, ReportDetail.updateStatusBtn. simpl.
  rewrite Hs. by rewrite bool_decide_eq_true_2.
Qed.

Lemma status_update_outcomes_witness :
  fst (ReportDetail.handleStatusUpdate 0 (Some sample_admin) None sample_page
         Rejected Rejected)
  = sample_page.
Proof.
  apply (proj1 (proj2 (status_update_outcomes 0 (Some sample_admin) None sample_page
                         eq_refl))).
Defined.

(** X9.  For a logged-in user, a comment that is accepted clears the
    comment box, so the add button is disabled again, and leaves the report
    untouched; the comment list becomes the refetched one, or stays as it
    was if the refetch fails.  If the POST is rejected the page state is
    unchanged: the typed text is not lost. *)
Theorem add_comment_outcomes :
  ∀ (id : ReportId) (u : Identity) (token : option string) (st : ReportDetail.State),
    (∀ refetched,
        let st' := fst (ReportDetail.handleAddComment id (Some u) token st
                          (Fulfilled tt) refetched) in
        ReportDetail.newComment st' = ""
        ∧ ReportDetail.addCommentBtn (Some u) st' = Rendered true
        ∧ ReportDetail.report st' = ReportDetail.report st
        ∧ ReportDetail.newStatus st' = ReportDetail.newStatus st
        ∧ ReportDetail.comments st'
          = match refetched with
            | Fulfilled data => data
            | Rejected => ReportDetail.comments st
            end)
    ∧ (∀ refetched,
        fst (ReportDetail.handleAddComment id (Some u) token st Rejected refetched) = st).
Proof.
  intros id u token st. split; [|done].
  intros refetched. by destruct refetched.
Qed.

Section ReportDetailRequests.
Import ReportDetail.

Lemma enabled_addCommentBtn user st :
  enabled (addCommentBtn user st) = true →
  is_Some user ∧ blank (newComment st) = false.
Proof.
  unfold addCommentBtn. destruct user as [u|]; [|done]. simpl.
  destruct (JS.trim (newComment st)) eqn:E; [done|]. intros _. split; [by eexists|].
  destruct (blank (newComment st)) eqn:Eb; [|done].
  apply trim_empty in Eb. congruence.
Qed.

Lemma enabled_updateStatusBtn user st r :
  enabled (updateStatusBtn user st r) = true →
  is_staff user = true ∧ (newStatus st ≠ status r ∨ statusComment st ≠ "").
Proof.
  unfold updateStatusBtn. destruct (is_staff user); [|done]. simpl.
  case_bool_decide as Hn; simpl.
  - destruct (statusComment st); [done|]. intros _. split; [done|]. by right.
  - intros _. split; [done|]. by left.
Qed.

End ReportDetailRequests.

(** X10.  Whatever happens on the report page, a request it sends is one
    of three kinds: a GET of this report or of its comments, without
    body and without Authorization header; a POST of the typed comment to
    the comments of this report, with the bearer token, sent only for a
    logged-in user and a text that is not blank; or a PUT of the selected
    status and the typed note to the status of this report, with the
    bearer token, sent only for an admin or technician and only when the
    status differs from the report's or a note is typed.  No request ever
    goes to another report. *)
Theorem report_page_requests :
  ∀ (id : ReportId) (user : option Identity) (token : option string)
    (st : ReportDetail.State) (ev : ReportDetail.Event)
    (m : Method) (url : Endpoint) (body : Body) (auth : option (option string)),
    Request m url body auth ∈ snd (ReportDetail.on id user token st ev) →
    (m = GET ∧ body = NoBody ∧ auth = None ∧ (url = ReportUrl id ∨ url = CommentsUrl id))
    ∨ (m = POST ∧ url = CommentsUrl id ∧ auth = Some token
       ∧ body = CommentBody (ReportDetail.newComment st)
       ∧ is_Some user ∧ blank (ReportDetail.newComment st) = false)
    ∨ (m = PUT ∧ url = StatusUrl id ∧ auth = Some token
       ∧ body = StatusBody (ReportDetail.newStatus st) (ReportDetail.statusComment st)
       ∧ is_staff user = true
       ∧ ∃ r, ReportDetail.report st = Some r
              ∧ (ReportDetail.newStatus st ≠ status r ∨ ReportDetail.statusComment st ≠ "")).
Proof.
  intros id user token st ev m url body auth.
  unfold ReportDetail.on, ReportDetail.render.
  destruct (ReportDetail.loading st); [by destruct ev; page_effect_cases|].
  destruct (ReportDetail.report st) as [r|] eqn:Hr; [|by destruct ev; page_effect_cases].
  destruct ev as [text|value|text|posted refetched|put refetched].
  - destruct (ReportDetail.addCommentBtn user st); page_effect_cases.
  - destruct (ReportDetail.updateStatusBtn user st r); page_effect_cases.
  - destruct (ReportDetail.updateStatusBtn user st r); page_effect_cases.
  - destruct (enabled (ReportDetail.addCommentBtn user st)) eqn:E; [|page_effect_cases].
    apply enabled_addCommentBtn in E as [[u Hu] Hb]. subst user.
    unfold ReportDetail.handleAddComment.
    destruct posted as [[]|]; [destruct refetched|]; page_effect_cases;
      simplify_eq; try (left; by eauto 10); right; left; split_and!; by eauto.
  - destruct (enabled (ReportDetail.updateStatusBtn user st r)) eqn:E; [|page_effect_cases].
    apply enabled_updateStatusBtn in E as [Hs Hc].
    unfold ReportDetail.handleStatusUpdate. rewrite lacksPermission_staff, Hs. simpl.
    destruct put as [[]|]; [destruct refetched|]; page_effect_cases;
      simplify_eq; try (left; by eauto 10); right; right; split_and!; by eauto.
Qed.

Lemma report_page_requests_witness :
  (PUT = GET ∧ StatusBody "closed" "" = NoBody ∧ Some (Some "t-1") = None
   ∧ (StatusUrl 0 = ReportUrl 0 ∨ StatusUrl 0 = CommentsUrl 0))
  ∨ (PUT = POST ∧ StatusUrl 0 = CommentsUrl 0 ∧ Some (Some "t-1") = Some (Some "t-1")
     ∧ StatusBody "closed" "" = CommentBody "  "
     ∧ is_Some (Some sample_admin) ∧ blank "  " = false)
  ∨ (PUT = PUT ∧ StatusUrl 0 = StatusUrl 0 ∧ Some (Some "t-1") = Some (Some "t-1")
     ∧ StatusBody "closed" "" = StatusBody "closed" ""
     ∧ is_staff (Some sample_admin) = true
     ∧ ∃ r, Some sample_resolved_report = Some r ∧ ("closed" ≠ status r ∨ "" ≠ "")).
Proof.
  apply (report_page_requests 0 (Some sample_admin) (Some "t-1")
           (ReportDetail.mkState (Some sample_resolved_report) [] "  " "closed" "" false)
           (ReportDetail.ClickUpdateStatus Rejected Rejected)
           PUT (StatusUrl 0) (StatusBody "closed" "") (Some (Some "t-1"))).
  vm_compute. apply list_elem_of_here.
Defined.

(** X11.  When [fetchReport] settles the spinner is gone for good.  A
    fulfilled fetch shows the fetched report with its status selected, so
    for a staff user the update button is disabled exactly while no note
    is typed.  A rejected fetch keeps the report shown before, and shows
    "Report not found" if there was none. *)
Theorem fetch_report_settles :
  ∀ (id : ReportId) (user : option Identity) (st : ReportDetail.State)
    (resp : Response Report),
    let st' := fst (ReportDetail.fetchReport id st resp) in
    ReportDetail.render user st' ≠ ReportDetail.Spinner
    ∧ (∀ data, resp = Fulfilled data →
         ReportDetail.report st' = Some data
         ∧ ReportDetail.render user st'
           = ReportDetail.Page (ReportDetail.addCommentBtn user st)
               (if is_staff user
                then Rendered (negb (JS.truthy (ReportDetail.statusComment st)))
                else NotRendered))
    ∧ (resp = Rejected →
         ReportDetail.report st' = ReportDetail.report st
         ∧ (ReportDetail.report st = None →
            ReportDetail.render user st' = ReportDetail.ReportNotFound)).
Proof.
  intros id user st resp. unfold ReportDetail.fetchReport.
  destruct resp as [data|]; simpl; split_and!; try done.
  - intros d [= <-]. split; [done|].
    unfold ReportDetail.render, ReportDetail.updateStatusBtn. simpl.
    destruct (is_staff user); [|done]. by rewrite bool_decide_eq_true_2.
  - unfold ReportDetail.render. simpl. by destruct (ReportDetail.report st).
  - intros _. split; [done|]. intros H. unfold ReportDetail.render. simpl. by rewrite H.
Qed.

Lemma fetch_report_settles_witness :
  ReportDetail.render None (fst (ReportDetail.fetchReport 0 ReportDetail.initial Rejected))
  = ReportDetail.ReportNotFound.
Proof.
  apply (proj2 (proj2 (fetch_report_settles 0 None ReportDetail.initial Rejected)) eq_refl).
  reflexivity.
Defined.

(** ** The report form, continued *)

Section CreateReportMore.
Import CreateReport.

Lemma locate_position nts st g :
  ∃ la lo, position (fst (locate nts st g)) = Some (la, lo)
           ∧ title_input (fst (locate nts st g)) = title_input st
           ∧ description_input (fst (locate nts st g)) = description_input st
           ∧ category_input (fst (locate nts st g)) = category_input st
           ∧ priority_input (fst (locate nts st g)) = priority_input st
           ∧ images_input (fst (locate nts st g)) = images_input st.
Proof.
  destruct g as [la lo resp| |]; simpl.
  - destruct (reverseGeocode nts la lo resp). simpl. by exists la, lo.
  - by eexists _, _.
  - by eexists _, _.
Qed.

Lemma nearest_scaled_nonneg (p : Z) (q : positive) (f : nat) :
  (0 ≤ p)%Z → (0 ≤ JS.nearest_scaled p q f)%Z.
Proof.
  intros Hp. unfold JS.nearest_scaled. apply Z.div_pos; [|lia].
  assert (0 ≤ 10 ^ Z.of_nat f)%Z by (apply Z.pow_nonneg; lia). nia.
Qed.

Lemma toFixed_prints_rounded nts (p : Z) (d : positive) (f : nat) :
  0 < f → fixed_range (JS.Finite (QArith_base.Qmake p d)) →
  prints_rounded f p d (JS.toFixed nts (JS.Finite (QArith_base.Qmake p d)) f).
Proof.
  intros Hf Hx. destruct (toFixed_value nts p d f Hf Hx) as (int & frac & E & Hl & Hv).
  exists int, frac, (JS.nearest_scaled (Z.abs p) d f). split_and!; try done.
  - apply nearest_scaled_nonneg. lia.
  - apply nearest_scaled_nearest.
  - apply nearest_scaled_nearest.
Qed.

End CreateReportMore.

(** X12.  Whatever the browser answers about geolocation, the mount effect
    of the report form leaves a position set (New York when geolocation
    fails or is missing) and the other inputs untouched; from then on
    [handleSubmit] sends exactly one request, the POST of the form as
    filled in, with the Authorization header exactly when a non-empty
    token is held, resets [loading], and navigates to the new report
    exactly when the POST is fulfilled.  Without a position it sends
    nothing. *)
Theorem submit_after_mount :
  ∀ (numberToString : QArith_base.Q → string) (token : option string)
    (st : CreateReport.State) (g : CreateReport.Geolocation)
    (resp : Response ReportId) (detail : option string),
    let st' := fst (CreateReport.locate numberToString st g) in
    (∃ la lo,
        CreateReport.position st' = Some (la, lo)
        ∧ List.filter is_request (snd (CreateReport.handleSubmit token st' resp detail))
          = [Request POST (ReportsUrl None None)
               (ReportForm (CreateReport.title_input st) (CreateReport.description_input st)
                  (CreateReport.category_input st) (CreateReport.priority_input st)
                  la lo (CreateReport.address_input st') (CreateReport.images_input st))
               (form_authorization token)])
    ∧ (g = CreateReport.GeolocationError ∨ g = CreateReport.GeolocationMissing →
       CreateReport.position st' = Some CreateReport.newYork)
    ∧ CreateReport.loading (fst (CreateReport.handleSubmit token st' resp detail)) = false
    ∧ (∀ rid, NavigateReport rid ∈ snd (CreateReport.handleSubmit token st' resp detail)
              ↔ resp = Fulfilled rid)
    ∧ (CreateReport.position st = None →
       List.filter is_request (snd (CreateReport.handleSubmit token st resp detail)) = []).
Proof.
  intros nts token st g resp detail st'.
  destruct (locate_position nts st g) as (la & lo & Hp & Ht & Hd & Hc & Hpr & Hi).
  fold st' in Hp, Ht, Hd, Hc, Hpr, Hi.
  assert (Ha : match token with
               | Some t => if JS.truthy t then Some token else None
               | None => None
               end = form_authorization token).
  { unfold form_authorization. destruct token as [t|]; [|done]. by destruct (JS.truthy t). }
  split_and!.
  - exists la, lo. split; [done|]. unfold CreateReport.handleSubmit.
    rewrite Hp, Ha, Ht, Hd, Hc, Hpr, Hi. by destruct resp.
  - intros [-> | ->]; done.
  - unfold CreateReport.handleSubmit. rewrite Hp. by destruct resp.
  - intros rid. unfold CreateReport.handleSubmit. rewrite Hp.
    destruct resp as [rid'|]; simpl; rewrite !elem_of_cons, elem_of_nil; split.
    + intros [H|[H|[H|[H|[]]]]]; try discriminate H. by injection H as ->.
    + intros [= ->]. auto.
    + intros [H|[H|[H|[H|[]]]]]; discriminate H.
    + done.
  - intros H. unfold CreateReport.handleSubmit. by rewrite H.
Qed.

Lemma submit_after_mount_witness :
  CreateReport.position
    (fst (CreateReport.locate sample_number_to_string CreateReport.initial
            CreateReport.GeolocationMissing))
  = Some CreateReport.newYork
  ∧ List.filter is_request
      (snd (CreateReport.handleSubmit None CreateReport.initial (Fulfilled 7) None))
    = [].
Proof.
  destruct (submit_after_mount sample_number_to_string None CreateReport.initial
              CreateReport.GeolocationMissing (Fulfilled 7) None) as (_ & H2 & _ & _ & H5).
  split; [apply H2; by right|apply H5; reflexivity].
Defined.

(** X13.  The upload tile of the form is shown exactly when one more file
    can still be selected; while it is hidden every non-empty selection is
    refused.  Removing an image at a position that does not exist changes
    nothing; removing an existing one leaves one image fewer, in the same
    order, and (from a form within the limit) brings the upload tile
    back. *)
Theorem upload_tile_and_remove :
  (∀ st, Display.uploadTile st = true
         ↔ ∀ f, CreateReport.images_input (fst (CreateReport.handleImageSelect st [f]))
                = CreateReport.images_input st ++ [f])
  ∧ (∀ st files,
      Display.uploadTile st = false → files ≠ [] →
      CreateReport.handleImageSelect st files = (st, [ToastError "Maximum 5 images allowed"]))
  ∧ (∀ st index,
      length (CreateReport.images_input st) ≤ index →
      CreateReport.removeImage st index = st)
  ∧ (∀ st index,
      index < length (CreateReport.images_input st) →
      S (length (CreateReport.images_input (CreateReport.removeImage st index)))
      = length (CreateReport.images_input st)
      ∧ CreateReport.images_input (CreateReport.removeImage st index)
          `sublist_of` CreateReport.images_input st
      ∧ (length (CreateReport.images_input st) ≤ 5 →
         Display.uploadTile (CreateReport.removeImage st index) = true)).
Proof.
  split_and!.
  - intros st. unfold Display.uploadTile, CreateReport.handleImageSelect. simpl.
    destruct (length (CreateReport.images_input st) <? 5) eqn:E.
    + apply Nat.ltb_lt in E. rewrite (proj2 (Nat.ltb_ge _ _)) by lia. done.
    + apply Nat.ltb_ge in E. rewrite (proj2 (Nat.ltb_lt _ _)) by lia. simpl.
      split; [done|]. intros H. specialize (H ""). apply (f_equal length) in H.
      rewrite length_app in H. simpl in H. lia.
  - intros st files Ht Hf. unfold Display.uploadTile in Ht. apply Nat.ltb_ge in Ht.
    unfold CreateReport.handleImageSelect.
    rewrite (proj2 (Nat.ltb_lt _ _)); [done|]. destruct files; [done|]. simpl. lia.
  - intros st index H. unfold CreateReport.removeImage.
    rewrite (filter_index_delete _ 0 index). simpl.
    assert (E : delete index (CreateReport.images_input st) = CreateReport.images_input st).
    { clear -H. revert index H.
      induction (CreateReport.images_input st) as [|x l IH]; intros [|i] H;
        simpl in *; try done; try lia. f_equal. apply IH. lia. }
    rewrite E. by destruct st.
  - intros st index H.
    assert (E : CreateReport.images_input (CreateReport.removeImage st index)
                = delete index (CreateReport.images_input st)).
    { simpl. apply (filter_index_delete _ 0 index). }
    rewrite E.
    assert (Hl : S (length (delete index (CreateReport.images_input st)))
                 = length (CreateReport.images_input st)).
    { clear -H. revert index H.
      induction (CreateReport.images_input st) as [|x l IH]; intros [|i] H;
        simpl in *; try lia. rewrite IH; lia. }
    split_and!.
    + exact Hl.
    + apply sublist_delete.
    + intros H5. unfold Display.uploadTile. rewrite E. apply Nat.ltb_lt. lia.
Qed.

Lemma upload_tile_and_remove_witness :
  CreateReport.handleImageSelect
    (CreateReport.setImages CreateReport.initial ["a"; "b"; "c"; "d"; "e"]) ["f"]
  = (CreateReport.setImages CreateReport.initial ["a"; "b"; "c"; "d"; "e"],
     [ToastError "Maximum 5 images allowed"])
  ∧ CreateReport.removeImage (CreateReport.setImages CreateReport.initial ["a"; "b"]) 2
    = CreateReport.setImages CreateReport.initial ["a"; "b"]
  ∧ Display.uploadTile
      (CreateReport.removeImage
         (CreateReport.setImages CreateReport.initial ["a"; "b"; "c"; "d"; "e"]) 4)
    = true.
Proof.
  destruct upload_tile_and_remove as (_ & Hfull & Hout & Hin).
  split_and!.
  - apply Hfull; [reflexivity|discriminate].
  - apply (Hout (CreateReport.setImages CreateReport.initial ["a"; "b"]) 2). simpl. lia.
  - apply (Hin (CreateReport.setImages CreateReport.initial ["a"; "b"; "c"; "d"; "e"]) 4);
      simpl; lia.
Defined.

(** X14.  For a latitude [p1 / d1] and a longitude [p2 / d2] below [10^21]
    in magnitude, the fallback address is the two numbers rounded to six
    decimal places: each part has a minus sign exactly for a negative
    number and exactly six digits after the point, and its digits are the
    numeral of an integer nearest to the magnitude times [10^6] (within one
    half, ties upwards). *)
Theorem fallback_prints_rounded_coordinates :
  ∀ (numberToString : QArith_base.Q → string) (p1 p2 : Z) (d1 d2 : positive),
    fixed_range (JS.Finite (QArith_base.Qmake p1 d1)) →
    fixed_range (JS.Finite (QArith_base.Qmake p2 d2)) →
    ∃ s1 s2,
      CreateReport.coordinates numberToString
        (JS.Finite (QArith_base.Qmake p1 d1)) (JS.Finite (QArith_base.Qmake p2 d2))
      = s1 +:+ ", " +:+ s2
      ∧ prints_rounded 6 p1 d1 s1
      ∧ prints_rounded 6 p2 d2 s2.
Proof.
  intros nts p1 p2 d1 d2 H1 H2.
  eexists _, _. split; [reflexivity|].
  split; apply toFixed_prints_rounded; (lia || done).
Qed.

Lemma fallback_prints_rounded_coordinates_witness :
  ∃ s1 s2,
    CreateReport.coordinates sample_number_to_string
      (JS.Finite (QArith_base.Qmake 407128 10000))
      (JS.Finite (QArith_base.Qmake (-740060) 10000))
    = s1 +:+ ", " +:+ s2
    ∧ prints_rounded 6 407128 10000 s1
    ∧ prints_rounded 6 (-740060) 10000 s2.
Proof.
  apply (fallback_prints_rounded_coordinates sample_number_to_string
           407128 (-740060) 10000 10000); simpl; lia.
Defined.

(** ** The admin dashboard, continued *)

Section AdminDashboardMore.
Import AdminDashboard.

Lemma filteredReports_elem term sf cf reports_ r :
  r ∈ filteredReports term sf cf reports_ → r ∈ reports_.
Proof.
  unfold filteredReports. rewrite !list_elem_of_In, filter_In. tauto.
Qed.

End AdminDashboardMore.

(** X15.  A report that already has an assignee name cannot be assigned
    again from the admin dashboard: if every fetched report with a given
    id carries a non-empty [assigned_to_name], choosing a technician for
    that id does nothing, since no assign select is rendered for it. *)
Theorem assigned_reports_offer_no_select :
  ∀ (user : option Identity) (token : option string) (st : AdminDashboard.State)
    (rid : ReportId) (value : UserId) (put : Response unit)
    (refetched : Response AdminDashboard.Data),
    (∀ r, r ∈ AdminDashboard.reports st → report_id r = rid →
          ∃ n, assigned_to_name r = Some n ∧ n ≠ "") →
    AdminDashboard.on user token st
      (AdminDashboard.ChooseTechnician rid value put refetched)
    = (st, []).
Proof.
  intros user token st rid value put refetched H. simpl.
  destruct (AdminDashboard.offers _ rid value) eqn:E; [|done]. exfalso.
  unfold AdminDashboard.render in E. destruct (AdminDashboard.loading st); [done|].
  simpl in E. apply existsb_exists in E as ([r items] & Hin & Hc).
  apply list_elem_of_In, list_elem_of_fmap in Hin as (r' & [= -> ->] & Hr).
  apply filteredReports_elem in Hr.
  apply andb_true_iff in Hc as [Hid Hv]. simpl in *.
  apply bool_decide_eq_true in Hid, Hv.
  destruct (H r' Hr Hid) as (n & Hn & Hne).
  unfold AdminDashboard.assignItems in Hv. rewrite Hn in Hv.
  destruct n; [done|]. simpl in Hv. by apply elem_of_nil in Hv.
Qed.

Lemma assigned_reports_offer_no_select_witness :
  AdminDashboard.on (Some sample_admin) (Some "t-1") sample_assigned_dashboard
    (AdminDashboard.ChooseTechnician 0 "u2" (Fulfilled tt) Rejected)
  = (sample_assigned_dashboard, []).
Proof.
  apply assigned_reports_offer_no_select.
  intros r Hr _. apply list_elem_of_singleton in Hr. subst r.
  exists "Ravi". split; [reflexivity|discriminate].
Defined.

(** X16.  Every request of the admin dashboard is one of: the GET of all
    reports, without parameters and without Authorization header; the GET
    of the analytics or of the users, with the bearer token; or the PUT of
    an assignment, with the bearer token, sent only once the data has
    been loaded.  Typing in the search box or choosing a status or a
    category sends nothing and leaves the fetched data as it is: the
    admin table is filtered in the browser. *)
Theorem admin_dashboard_requests :
  ∀ (user : option Identity) (token : option string) (st : AdminDashboard.State),
    (∀ ev m url body auth,
        Request m url body auth ∈ snd (AdminDashboard.on user token st ev) →
        (m = GET ∧ body = NoBody ∧ url = ReportsUrl None None ∧ auth = None)
        ∨ (m = GET ∧ body = NoBody ∧ (url = AnalyticsUrl ∨ url = UsersUrl)
           ∧ auth = Some token)
        ∨ (m = PUT ∧ auth = Some token ∧ AdminDashboard.loading st = false
           ∧ ∃ rid tid, url = AssignUrl rid ∧ body = AssignBody tid))
    ∧ (∀ ev,
        (∃ v, ev = AdminDashboard.SetSearchTerm v ∨ ev = AdminDashboard.SetStatusFilter v
              ∨ ev = AdminDashboard.SetCategoryFilter v) →
        snd (AdminDashboard.on user token st ev) = []
        ∧ AdminDashboard.reports (fst (AdminDashboard.on user token st ev))
          = AdminDashboard.reports st
        ∧ AdminDashboard.users (fst (AdminDashboard.on user token st ev))
          = AdminDashboard.users st).
Proof.
  intros user token st. split.
  - intros ev m url body auth. destruct ev; simpl.
    + unfold AdminDashboard.accessEffect, AdminDashboard.fetchData.
      destruct (AdminDashboard.not_admin user); [by effect_cases|].
      destruct resp as [[[rs an] us]|]; effect_cases; simplify_eq; by eauto 10.
    + destruct (AdminDashboard.loading st); by intros ?%elem_of_nil.
    + destruct (AdminDashboard.loading st); by intros ?%elem_of_nil.
    + destruct (AdminDashboard.loading st); by intros ?%elem_of_nil.
    + destruct (AdminDashboard.offers _ rid value) eqn:Ho; [|by intros ?%elem_of_nil].
      apply offers_spec in Ho as [Hl _]. unfold AdminDashboard.handleAssign.
      destruct put as [[]|]; [destruct refetched as [[[rs an] us]|]|];
        effect_cases; simplify_eq; try (by eauto 10);
        right; right; split_and!; by eauto.
  - intros ev (v & [-> | [-> | ->]]); simpl; by destruct (AdminDashboard.loading st).
Qed.

Lemma admin_dashboard_requests_witness :
  snd (AdminDashboard.on (Some sample_admin) (Some "t-1") sample_dashboard
         (AdminDashboard.SetStatusFilter "resolved"))
  = [].
Proof.
  apply (proj2 (admin_dashboard_requests (Some sample_admin) (Some "t-1") sample_dashboard)).
  exists "resolved". right; left; reflexivity.
Defined.

(** ** What the pages display *)


